(** * mochiagents/toolkit: the tool registry and the JSON-RPC dispatcher

    A shallow embedding of
      - [available_tools/__init__.py]  (registration tables, initializers),
      - [mcp_server/tool_registry.py]  (the dispatcher's registry, [call_tool]),
      - [mcp_server/main.py]           ([mcp_rpc_handler]),
      - [mcp_server/models.py]         (the pydantic records),
      - the four tool modules under [available_tools/].

    Conventions of the embedding.
      - A Python value that travels through JSON is a [value].
      - A Python [dict] is an insertion-ordered association list with unique
        keys ([dict_set] overwrites in place, otherwise appends).
      - A function object is known by its identity, a [fn]; what it does when
        called is given by the environment of the section it is used in.
      - Module globals are the fields of [state]; code that reads or writes
        them, calls a function object or raises lives in the monad [M].
      - Exceptions are instances of [Exception]; process signals that derive
        from [BaseException] only are outside the model.
      - Calls to [logger] are not observable and are left out; [print] is
        recorded in the trace. [await] is sequential composition. *)

From Stdlib Require Import String Ascii List ZArith QArith Bool Lia.
From Stdlib Require Import DecimalString.
Import ListNotations.
Local Open Scope string_scope.
Local Open Scope list_scope.
Local Open Scope Z_scope.

Set Implicit Arguments.

(** ** Python values *)

#[warnings="-register-all"]
Inductive value : Type :=
| VNone
| VBool (b : bool)
| VInt (z : Z)
| VFloat (q : Q)
| VStr (s : string)
| VList (l : list value)
| VDict (d : list (string * value)).

(** [bool(v)]: the truth value Python gives an object in [if v] and [not v]. *)
Definition truthy (v : value) : bool :=
  match v with
  | VNone => false
  | VBool b => b
  | VInt z => negb (z =? 0)
  | VFloat q => negb (Qeq_bool q 0)
  | VStr s => negb (String.eqb s EmptyString)
  | VList l => match l with [] => false | _ :: _ => true end
  | VDict d => match d with [] => false | _ :: _ => true end
  end.

Definition is_None (v : value) : bool :=
  match v with VNone => true | _ => false end.

Definition isinstance_dict (v : value) : bool :=
  match v with VDict _ => true | _ => false end.

Definition isinstance_str (v : value) : bool :=
  match v with VStr _ => true | _ => false end.

(** [bool] is a subclass of [int] in Python. *)
Definition isinstance_int (v : value) : bool :=
  match v with VInt _ | VBool _ => true | _ => false end.

(** The text of a value known to be a [str]. *)
Definition str_value (v : value) : string :=
  match v with VStr s => s | _ => EmptyString end.

(** An f-string is the concatenation of its pieces. *)
Definition fstr (pieces : list string) : string := String.concat EmptyString pieces.

Definition str_of_int (z : Z) : string := NilZero.string_of_int (Z.to_int z).

(** ** Insertion-ordered dictionaries with [str] keys *)

Definition dict (V : Type) : Type := list (string * V).

Fixpoint dict_get {V} (k : string) (d : dict V) : option V :=
  match d with
  | [] => None
  | (k', v) :: d' => if String.eqb k k' then Some v else dict_get k d'
  end.

(** [d[k] = v] *)
Fixpoint dict_set {V} (k : string) (v : V) (d : dict V) : dict V :=
  match d with
  | [] => [(k, v)]
  | (k', v') :: d' =>
      if String.eqb k k' then (k, v) :: d' else (k', v') :: dict_set k v d'
  end.

Definition dict_keys {V} (d : dict V) : list string := map fst d.
Definition dict_values {V} (d : dict V) : list V := map snd d.

(** [k in d] *)
Definition dict_mem {V} (k : string) (d : dict V) : bool :=
  match dict_get k d with Some _ => true | None => false end.

(** [v.get(k)] on a value that is a [dict]; [None] when the key is absent. *)
Definition value_get (v : value) (k : string) : value :=
  match v with
  | VDict d => match dict_get k d with Some x => x | None => VNone end
  | _ => VNone
  end.

(** [v.get(k, default)] *)
Definition value_get_default (v : value) (k : string) (default : value) : value :=
  match v with
  | VDict d => match dict_get k d with Some x => x | None => default end
  | _ => default
  end.

(** ** Exceptions *)

(** The exception classes the code can meet. An [HttpError] of the Google
    client carries [resp.status], the text of [_get_reason()] and its
    [content], the bytes of the response body. The last field of every
    constructor is what [str(e)] gives. *)
Inductive exn : Type :=
| Exception (msg : string)
| ValueError (msg : string)
| TypeError (msg : string)
| AttributeError (msg : string)
| UnicodeDecodeError (msg : string)
| ValidationError (msg : string)
| HttpError (status : Z) (reason : string) (content : string) (msg : string).

(** [str(e)] *)
Definition exn_str (e : exn) : string :=
  match e with
  | Exception m | ValueError m | TypeError m | AttributeError m
  | UnicodeDecodeError m | ValidationError m => m
  | HttpError _ _ _ m => m
  end.

Inductive res (A : Type) : Type :=
| Ok (a : A)
| Raise (e : exn).
Arguments Ok {A} a.
Arguments Raise {A} e.

(** ** Bytes *)

(** A [bytes] object is a [string], one character per byte. *)
Definition byte_value (c : ascii) : nat := nat_of_ascii c.

Definition between (lo hi : nat) (c : ascii) : bool :=
  (lo <=? byte_value c)%nat && (byte_value c <=? hi)%nat.

Definition continuation (c : ascii) : bool := between 128 191 c.

(** The bytes are well-formed UTF-8: no stray or missing continuation byte,
    no overlong form, no surrogate, nothing above U+10FFFF. *)
Fixpoint utf8_valid (b : string) : bool :=
  match b with
  | EmptyString => true
  | String c0 rest =>
      if between 0 127 c0 then utf8_valid rest
      else if between 194 223 c0 then
        match rest with
        | String c1 rest1 => continuation c1 && utf8_valid rest1
        | _ => false
        end
      else if between 224 239 c0 then
        match rest with
        | String c1 (String c2 rest2) =>
            (if between 224 224 c0 then between 160 191 c1
             else if between 237 237 c0 then between 128 159 c1
             else continuation c1)
            && continuation c2 && utf8_valid rest2
        | _ => false
        end
      else if between 240 244 c0 then
        match rest with
        | String c1 (String c2 (String c3 rest3)) =>
            (if between 240 240 c0 then between 144 191 c1
             else if between 244 244 c0 then between 128 143 c1
             else continuation c1)
            && continuation c2 && continuation c3 && utf8_valid rest3
        | _ => false
        end
      else false
  end.

(** [b.decode()]: the text that the bytes are the UTF-8 encoding of. *)
Definition bytes_decode (b : string) : res string :=
  if utf8_valid b then Ok b
  else Raise (UnicodeDecodeError "'utf-8' codec can't decode bytes").

(** ** mcp_server/models.py *)

Record ToolInputSchema : Type := {
  in_name : string;
  in_description : string;
  in_type : string;
  in_required : bool;
  in_example : value
}.

Record ToolOutputSchemaDefinition : Type := {
  out_type : string;
  out_description : value;
  out_properties : value;
  out_items : value;
  out_example : value
}.

Record ToolDefinition : Type := {
  tool_name : string;
  description : string;
  inputs : list ToolInputSchema;
  output : ToolOutputSchemaDefinition
}.

Record JsonRpcRequest : Type := {
  req_jsonrpc : string;
  req_method : string;
  req_params : value;
  req_id : value
}.

Record JsonRpcResponse : Type := {
  rsp_jsonrpc : string;
  rsp_result : value;
  rsp_error : value;
  rsp_id : value
}.

(** [JsonRpcResponse(result=r, id=i)] and [JsonRpcResponse(error=e, id=i)]:
    the field left out takes its default, [None]. *)
Definition response_result (r : value) (i : value) : JsonRpcResponse :=
  {| rsp_jsonrpc := "2.0"; rsp_result := r; rsp_error := VNone; rsp_id := i |}.

Definition response_error (code : Z) (message : string) (i : value) : JsonRpcResponse :=
  {| rsp_jsonrpc := "2.0"; rsp_result := VNone;
     rsp_error := VDict [("code", VInt code); ("message", VStr message)];
     rsp_id := i |}.

(** [model_dump()] of the schema records: a dict of the fields in declaration
    order. *)
Definition dump_input (i : ToolInputSchema) : value :=
  VDict [("name", VStr (in_name i)); ("description", VStr (in_description i));
         ("type", VStr (in_type i)); ("required", VBool (in_required i));
         ("example", in_example i)].

Definition dump_output (o : ToolOutputSchemaDefinition) : value :=
  VDict [("type", VStr (out_type o)); ("description", out_description o);
         ("properties", out_properties o); ("items", out_items o);
         ("example", out_example o)].

Definition model_dump (td : ToolDefinition) : value :=
  VDict [("tool_name", VStr (tool_name td)); ("description", VStr (description td));
         ("inputs", VList (map dump_input (inputs td)));
         ("output", dump_output (output td))].

(** ** Function objects, events and module state *)

(** The identity of a function object: [f is g] and, for functions, [f == g]
    and [f in l] all compare identities. *)
Definition fn : Type := nat.

Definition is_ (f g : fn) : bool := Nat.eqb f g.

(** [f in l] for a list of function objects. *)
Definition fn_in (f : fn) (l : list fn) : bool := existsb (is_ f) l.

(** What an observer of the process can see of a run. *)
Inductive event : Type :=
| EvInit (f : fn)
| EvExec (f : fn) (inputs : value)
| EvPrint (line : string).

(** [RegisteredTool] of mcp_server/tool_registry.py *)
Record RegisteredTool : Type := {
  name : string;
  definition : ToolDefinition;
  execute_func : fn
}.

(** *** The monad of module-level code: state and exceptions *)

Definition M (S A : Type) : Type := S -> res A * S.

Definition ret {S A} (a : A) : M S A := fun s => (Ok a, s).

Definition bind {S A B} (m : M S A) (k : A -> M S B) : M S B :=
  fun s => match m s with
           | (Ok a, s') => k a s'
           | (Raise e, s') => (Raise e, s')
           end.

Definition raise {S A} (e : exn) : M S A := fun s => (Raise e, s).

(** [try: m  except Exception as e: h e] *)
Definition try_except {S A} (m : M S A) (h : exn -> M S A) : M S A :=
  fun s => match m s with
           | (Ok a, s') => (Ok a, s')
           | (Raise e, s') => h e s'
           end.

Definition gets {S A} (f : S -> A) : M S A := fun s => (Ok (f s), s).

Definition modify {S} (f : S -> S) : M S unit := fun s => (Ok tt, f s).

Declare Scope monad_scope.
Delimit Scope monad_scope with monad.
Notation "x <- m ;; k" := (bind m (fun x => k))
  (at level 61, m at next level, right associativity) : monad_scope.
Notation "m ;; k" := (bind m (fun _ => k))
  (at level 61, right associativity) : monad_scope.
Local Open Scope monad_scope.

(** Everything outside the registry and the dispatcher that a call can read
    or change (the tools' client handles and the services behind them), and
    what each function object does when called: as an executor,
    [await f(inputs)], and as an initializer, [f()]; [fn_name f] is
    [f.__name__], which a callable that is not a function (a
    [functools.partial]) does not have. Function objects do not touch the
    registration tables. *)
Class Environment : Type := {
  World : Type;
  exec_behaviour : fn -> value -> World -> res value * World;
  init_behaviour : fn -> World -> res unit * World;
  fn_name : fn -> option string
}.

Section Toolkit.

Context {env : Environment}.

Record state : Type := mkState {
  TOOL_DEFINITIONS : dict ToolDefinition;
  TOOL_EXECUTORS : dict fn;
  TOOL_INITIALIZERS : list fn;
  _tool_registry : dict RegisteredTool;
  world : World;
  trace : list event
}.

(** The module globals as the two modules define them, before any call. *)
Definition initial_state (w : World) : state :=
  mkState [] [] [] [] w [].

Definition set_TOOL_DEFINITIONS (d : dict ToolDefinition) (s : state) : state :=
  mkState d (TOOL_EXECUTORS s) (TOOL_INITIALIZERS s) (_tool_registry s) (world s) (trace s).
Definition set_TOOL_EXECUTORS (d : dict fn) (s : state) : state :=
  mkState (TOOL_DEFINITIONS s) d (TOOL_INITIALIZERS s) (_tool_registry s) (world s) (trace s).
Definition set_TOOL_INITIALIZERS (l : list fn) (s : state) : state :=
  mkState (TOOL_DEFINITIONS s) (TOOL_EXECUTORS s) l (_tool_registry s) (world s) (trace s).
Definition set_tool_registry (d : dict RegisteredTool) (s : state) : state :=
  mkState (TOOL_DEFINITIONS s) (TOOL_EXECUTORS s) (TOOL_INITIALIZERS s) d (world s) (trace s).
Definition set_world (w : World) (s : state) : state :=
  mkState (TOOL_DEFINITIONS s) (TOOL_EXECUTORS s) (TOOL_INITIALIZERS s) (_tool_registry s) w (trace s).
Definition emit (e : event) (s : state) : state :=
  mkState (TOOL_DEFINITIONS s) (TOOL_EXECUTORS s) (TOOL_INITIALIZERS s) (_tool_registry s)
          (world s) (trace s ++ [e]).

(** [print(line)] *)
Definition print (line : string) : M state unit := modify (emit (EvPrint line)).

(** [f()] for an initializer: the call is observed, then the body runs. *)
Definition call_initializer (f : fn) : M state unit :=
  fun s => let s1 := emit (EvInit f) s in
           let (r, w) := init_behaviour f (world s1) in (r, set_world w s1).

(** [await f(inputs)] for an executor. *)
Definition call_executor (f : fn) (inputs : value) : M state value :=
  fun s => let s1 := emit (EvExec f inputs) s in
           let (r, w) := exec_behaviour f inputs (world s1) in (r, set_world w s1).

(** *** available_tools/__init__.py *)

Definition register_tool
    (tool_name_ : string)
    (definition_getter : unit -> ToolDefinition)
    (executor : fn)
    (initializer : option fn)
    (is_initializer_shared : bool) : M state unit :=
  let definition := definition_getter tt in
  if negb (String.eqb tool_name_ (tool_name definition)) then
    raise (ValueError (fstr ["Tool name mismatch for "; tool_name_;
                             ": definition has "; tool_name definition]))
  else
    modify (fun s => set_TOOL_DEFINITIONS (dict_set tool_name_ definition (TOOL_DEFINITIONS s)) s) ;;
    modify (fun s => set_TOOL_EXECUTORS (dict_set tool_name_ executor (TOOL_EXECUTORS s)) s) ;;
    match initializer with
    | Some init =>
        registered <- gets TOOL_INITIALIZERS ;;
        if negb is_initializer_shared || negb (fn_in init registered) then
          modify (fun s => set_TOOL_INITIALIZERS (TOOL_INITIALIZERS s ++ [init]) s)
        else ret tt
    | None => ret tt
    end.

Definition get_all_available_tool_definitions : M state (list ToolDefinition) :=
  gets (fun s => dict_values (TOOL_DEFINITIONS s)).

Definition get_tool_executor (tool_name_ : string) : M state (option fn) :=
  gets (fun s => dict_get tool_name_ (TOOL_EXECUTORS s)).

(** The first loop of [initialize_all_tools], with its accumulator. *)
Fixpoint unique_loop (pending : list fn) (unique_initializers : list fn) : list fn :=
  match pending with
  | [] => unique_initializers
  | init_func :: rest =>
      if negb (fn_in init_func unique_initializers)
      then unique_loop rest (unique_initializers ++ [init_func])
      else unique_loop rest unique_initializers
  end.

(** [f.__name__] *)
Definition get_name (f : fn) : M state string :=
  match fn_name f with
  | Some n => ret n
  | None => raise (AttributeError "object has no attribute '__name__'")
  end.

(** The second loop. *)
Fixpoint run_initializers (unique_initializers : list fn) : M state unit :=
  match unique_initializers with
  | [] => ret tt
  | initializer :: rest =>
      try_except (call_initializer initializer)
        (fun e =>
           initializer_name <- get_name initializer ;;
           print (fstr ["Error during tool initialization: "; initializer_name;
                        " failed with "; exn_str e])) ;;
      run_initializers rest
  end.

Definition initialize_all_tools : M state unit :=
  registered <- gets TOOL_INITIALIZERS ;;
  run_initializers (unique_loop registered []).

(** *** mcp_server/tool_registry.py *)

(** The shape every tool-level failure is reported in. *)
Definition failure (message : string) : value :=
  VDict [("status", VStr "failure"); ("output", VNone); ("error", VStr message)].

Definition success (payload : value) : value :=
  VDict [("status", VStr "success"); ("output", payload); ("error", VNone)].

(** The loop of [discover_and_register_tools] over
    [AVAILABLE_TOOL_DEFINITIONS.items()]. *)
Fixpoint register_available (items : list (string * ToolDefinition)) : M state unit :=
  match items with
  | [] => ret tt
  | (tool_name_, definition_) :: rest =>
      executor <- gets (fun s => dict_get tool_name_ (TOOL_EXECUTORS s)) ;;
      match executor with
      | Some executor =>
          modify (fun s =>
            set_tool_registry
              (dict_set tool_name_
                 {| name := tool_name_; definition := definition_; execute_func := executor |}
                 (_tool_registry s)) s)
      | None => ret tt
      end ;;
      register_available rest
  end.

Definition discover_and_register_tools : M state unit :=
  modify (set_tool_registry []) ;;
  try_except
    (initialize_all_tools ;;
     items <- gets TOOL_DEFINITIONS ;;
     register_available items)
    (fun e => ret tt).

Definition get_all_tool_definitions : M state (list ToolDefinition) :=
  gets (fun s => map definition (dict_values (_tool_registry s))).

Definition call_tool (tool_name_ : string) (inputs : value) : M state value :=
  tool <- gets (fun s => dict_get tool_name_ (_tool_registry s)) ;;
  match tool with
  | Some tool =>
      try_except
        (call_executor (execute_func tool) inputs)
        (fun e => ret (failure (fstr ["Internal error during '"; tool_name_;
                                      "' execution: "; exn_str e])))
  | None =>
      ret (failure (fstr ["Tool '"; tool_name_; "' not found or not executable."]))
  end.

(** *** mcp_server/main.py *)

Definition msg_invalid_params : string :=
  "Invalid params: 'params' must be an object for mcp_call_tool.".
Definition msg_invalid_tool_id : string :=
  "Invalid params: 'tool_id' is missing or not a string.".
Definition msg_invalid_inputs : string :=
  "Invalid params: 'inputs' is missing or not an object.".

Definition mcp_rpc_handler (request : JsonRpcRequest) : M state JsonRpcResponse :=
  if String.eqb (req_method request) "mcp_list_tools" then
    tools_definitions <- get_all_tool_definitions ;;
    ret (response_result (VList (map model_dump tools_definitions)) (req_id request))
  else if String.eqb (req_method request) "mcp_call_tool" then
    if negb (truthy (req_params request)) || negb (isinstance_dict (req_params request)) then
      ret (response_error (-32602) msg_invalid_params (req_id request))
    else
      let tool_name_ := value_get (req_params request) "tool_id" in
      let inputs := value_get (req_params request) "inputs" in
      if negb (truthy tool_name_) || negb (isinstance_str tool_name_) then
        ret (response_error (-32602) msg_invalid_tool_id (req_id request))
      else if is_None inputs || negb (isinstance_dict inputs) then
        ret (response_error (-32602) msg_invalid_inputs (req_id request))
      else
        tool_execution_payload <- call_tool (str_value tool_name_) inputs ;;
        if truthy tool_execution_payload then
          ret (response_result tool_execution_payload (req_id request))
        else
          ret (response_error (-32601)
                 (fstr ["Method not found or error: Tool with id '"; str_value tool_name_;
                        "' is not available or failed execution."])
                 (req_id request))
  else
    ret (response_error (-32601)
           (fstr ["Method '"; req_method request; "' not found."])
           (req_id request)).

End Toolkit.

(** One call of [register_tool], as data. *)
Record registration : Type := {
  reg_tool_name : string;
  reg_definition_getter : unit -> ToolDefinition;
  reg_executor : fn;
  reg_initializer : option fn;
  reg_is_initializer_shared : bool
}.

(** ** The tool modules *)

(** google_sheets_models.py: the request records that [execute] builds from
    its inputs. *)
Record AppendRequest : Type := {
  ar_spreadsheet_id : string;
  ar_range : string;
  ar_value_input_option : string;
  ar_values : value;
  ar_insert_data_option : value
}.

Record ReadRequest : Type := {
  rr_spreadsheet_id : string;
  rr_range : string;
  rr_major_dimension : value;
  rr_value_render_option : value;
  rr_date_time_render_option : value
}.

Record UpdateRequest : Type := {
  ur_spreadsheet_id : string;
  ur_range : string;
  ur_values : value;
  ur_value_input_option : value
}.

(** What the tool modules take from outside the repository: the process
    environment, the Tavily and Google client libraries with the services
    behind them ([Remote] is their state), and pydantic's validation of the
    request records. A client object is truthy. *)
Class External : Type := {
  Remote : Type;
  TavilyClient : Type;
  SheetsService : Type;
  TAVILY_API_KEY : value;
  TavilyClient_new : value -> res TavilyClient;
  tavily_client_search : TavilyClient -> value -> value -> value -> Remote -> res value * Remote;
  google_auth_default_and_build : Remote -> res SheetsService * Remote;
  AppendRequest_new : value -> res AppendRequest;
  ReadRequest_new : value -> res ReadRequest;
  UpdateRequest_new : value -> res UpdateRequest;
  values_append_execute : SheetsService -> value -> Remote -> res value * Remote;
  values_get_execute : SheetsService -> value -> Remote -> res value * Remote;
  values_update_execute : SheetsService -> value -> Remote -> res value * Remote
}.

(** [x.get(k)] and [x.get(k, default)] on an arbitrary object: only a dict
    has the method. *)
Definition py_get (x : value) (k : string) : res value :=
  match x with
  | VDict _ => Ok (value_get x k)
  | _ => Raise (Exception "object has no attribute 'get'")
  end.

Definition py_get_default (x : value) (k : string) (default : value) : res value :=
  match x with
  | VDict _ => Ok (value_get_default x k default)
  | _ => Raise (Exception "object has no attribute 'get'")
  end.

Fixpoint chars (s : string) : list value :=
  match s with
  | EmptyString => []
  | String c s' => VStr (String c EmptyString) :: chars s'
  end.

(** [iter(x)]: the elements a [for] loop or a generator sees. *)
Definition py_iter (x : value) : res (list value) :=
  match x with
  | VList l => Ok l
  | VStr s => Ok (chars s)
  | VDict d => Ok (map (fun kv => VStr (fst kv)) d)
  | _ => Raise (TypeError "object is not iterable")
  end.

(** The integer a [bool] or [int] compares as. *)
Definition int_value (v : value) : Z :=
  match v with
  | VInt z => z
  | VBool true => 1
  | _ => 0
  end.

(** [cell not in [None, "", " "]]: an object equals [None] only if it is
    [None], and equals a [str] only if it is that [str]. *)
Definition cell_not_blank (cell : value) : bool :=
  match cell with
  | VNone => false
  | VStr s => negb (String.eqb s EmptyString || String.eqb s " ")
  | _ => true
  end.

(** [any(any(cell not in [None, "", " "] for cell in row) for row in rows)];
    [any] stops at the first true element. *)
Fixpoint any_row_meaningful (rows : list value) : res bool :=
  match rows with
  | [] => Ok false
  | row :: rest =>
      match py_iter row with
      | Raise e => Raise e
      | Ok cells =>
          if existsb cell_not_blank cells then Ok true else any_row_meaningful rest
      end
  end.

Definition nl : string := String (ascii_of_nat 10) EmptyString.

Section Tools.

Context {ext : External}.

(** The module globals of the two tool modules, and the services. *)
Record ToolWorld : Type := mkToolWorld {
  tavily_client : option TavilyClient;
  google_sheets_service : option SheetsService;
  remote : Remote
}.

Definition set_tavily_client (c : option TavilyClient) (w : ToolWorld) : ToolWorld :=
  mkToolWorld c (google_sheets_service w) (remote w).
Definition set_google_sheets_service (c : option SheetsService) (w : ToolWorld) : ToolWorld :=
  mkToolWorld (tavily_client w) c (remote w).

(** A call into a client library. *)
Definition call_remote {A} (f : Remote -> res A * Remote) : M ToolWorld A :=
  fun w => let (r, x) := f (remote w) in (r, mkToolWorld (tavily_client w) (google_sheets_service w) x).

(** A computation that only raises or returns. *)
Definition lift {A} (r : res A) : M ToolWorld A := fun w => (r, w).

(** *** tavily_search_tool.py *)

Definition initialize_tavily_search_tool : M ToolWorld unit :=
  client <- gets tavily_client ;;
  match client with
  | Some _ => ret tt
  | None =>
      let api_key := TAVILY_API_KEY in
      if truthy api_key then
        c <- lift (TavilyClient_new api_key) ;;
        modify (set_tavily_client (Some c))
      else ret tt
  end.

Definition execute_tavily_search (inputs : value) : M ToolWorld value :=
  client <- gets tavily_client ;;
  match client with
  | None => ret (failure "Tool error: Tavily client not initialized.")
  | Some client =>
      query <- lift (py_get inputs "query") ;;
      if negb (truthy query) || negb (isinstance_str query) then
        ret (failure "Invalid input: 'query' is missing or not a string.")
      else
        try_except
          (search_depth <- lift (py_get_default inputs "search_depth" (VStr "advanced")) ;;
           max_results <- lift (py_get_default inputs "max_results" (VInt 5)) ;;
           let search_depth :=
             if negb (isinstance_str search_depth)
                || negb (String.eqb (str_value search_depth) "basic"
                         || String.eqb (str_value search_depth) "advanced")
             then VStr "advanced" else search_depth in
           let max_results :=
             if negb (isinstance_int max_results)
                || negb ((0 <? int_value max_results) && (int_value max_results <=? 20))
             then VInt 5 else max_results in
           raw_tavily_search_output <-
             call_remote (tavily_client_search client query search_depth max_results) ;;
           ret (success raw_tavily_search_output))
          (fun e => ret (failure (fstr ["Tool execution error: "; exn_str e])))
  end.

(** *** google_sheets_tool.py *)

Definition initialize_google_sheets_tool : M ToolWorld unit :=
  service <- gets google_sheets_service ;;
  match service with
  | Some _ => ret tt
  | None =>
      try_except
        (service <- call_remote google_auth_default_and_build ;;
         modify (set_google_sheets_service (Some service)))
        (fun e => modify (set_google_sheets_service None))
  end.

(** The first lines of each executor: initialise the client on first use. *)
Definition ensure_google_sheets_service : M ToolWorld (option SheetsService) :=
  service <- gets google_sheets_service ;;
  match service with
  | Some _ => ret service
  | None => initialize_google_sheets_tool ;; gets google_sheets_service
  end.

(** [d[k] = v] for a dict under construction, when [cond] is truthy. *)
Definition set_if (cond : value) (k : string) (d : dict value) : dict value :=
  if truthy cond then dict_set k cond d else d.

(** The two [except] clauses that close each executor's call to the API:
    [except HttpError as error] first, then [except Exception as e]. What
    [error.content.decode()] raises leaves the clause, and the executor. *)
Definition except_api (op : string) (e : exn) : M ToolWorld value :=
  match e with
  | HttpError status reason content _ =>
      details <- (if negb (String.eqb content EmptyString)
                  then lift (bytes_decode content) else ret "N/A") ;;
      ret (failure (fstr ["API error ("; op; "): "; str_of_int status; " - "; reason;
                          ". Details: "; details]))
  | _ => ret (failure (fstr ["Tool execution error ("; op; "): "; exn_str e]))
  end.

Definition execute_google_sheets_append (inputs : value) : M ToolWorld value :=
  service <- ensure_google_sheets_service ;;
  match service with
  | None => ret (failure "Tool error: Google Sheets client not initialized.")
  | Some service =>
      match AppendRequest_new inputs with
      | Raise e => ret (failure (fstr ["Invalid input for append: "; exn_str e]))
      | Ok append_request =>
          let body := VDict [("values", ar_values append_request)] in
          try_except
            (let request_params :=
               set_if (ar_insert_data_option append_request) "insertDataOption"
                 [("spreadsheetId", VStr (ar_spreadsheet_id append_request));
                  ("range", VStr (ar_range append_request));
                  ("valueInputOption", VStr (ar_value_input_option append_request));
                  ("body", body)] in
             result <- call_remote (values_append_execute service (VDict request_params)) ;;
             spreadsheet_id <- lift (py_get result "spreadsheetId") ;;
             updates_or_empty <- lift (py_get_default result "updates" (VDict [])) ;;
             table_range <- lift (py_get updates_or_empty "updatedRange") ;;
             updates <- lift (py_get result "updates") ;;
             let output_response :=
               VDict [("spreadsheet_id", spreadsheet_id);
                      ("table_range", table_range);
                      ("updates", updates)] in
             ret (success output_response))
            (except_api "append")
      end
  end.

Definition execute_google_sheets_read (inputs : value) : M ToolWorld value :=
  service <- ensure_google_sheets_service ;;
  match service with
  | None => ret (failure "Tool error: Google Sheets client not initialized.")
  | Some service =>
      match ReadRequest_new inputs with
      | Raise e => ret (failure (fstr ["Invalid input for read: "; exn_str e]))
      | Ok read_request =>
          try_except
            (let request_params :=
               set_if (rr_date_time_render_option read_request) "dateTimeRenderOption"
                 (set_if (rr_value_render_option read_request) "valueRenderOption"
                    (set_if (rr_major_dimension read_request) "majorDimension"
                       [("spreadsheetId", VStr (rr_spreadsheet_id read_request));
                        ("range", VStr (rr_range read_request))])) in
             result <- call_remote (values_get_execute service (VDict request_params)) ;;
             output_values <- lift (py_get_default result "values" (VList [])) ;;
             if negb (truthy output_values) then
               ret (VDict [("status", VStr "failure"); ("error", VStr "Empty spreadsheet data")])
             else
               rows <- lift (py_iter output_values) ;;
               has_meaningful_data <- lift (any_row_meaningful rows) ;;
               if negb has_meaningful_data then
                 ret (failure (fstr [
                   "No meaningful data found in spreadsheet range. Check: ";
                   "1. Range includes sheet name (e.g., 'Sheet1!A1:Z100')"; nl;
                   "2. Cells contain non-empty values"; nl;
                   "3. Range contains actual data (current range: "; rr_range read_request; ")"]))
               else
                 range <- lift (py_get result "range") ;;
                 major_dimension <- lift (py_get result "majorDimension") ;;
                 let output_response :=
                   VDict [("spreadsheet_id", VStr (rr_spreadsheet_id read_request));
                          ("range", range);
                          ("major_dimension", major_dimension);
                          ("values", output_values)] in
                 ret (success output_response))
            (except_api "read")
      end
  end.

Definition execute_google_sheets_update (inputs : value) : M ToolWorld value :=
  service <- ensure_google_sheets_service ;;
  match service with
  | None => ret (failure "Tool error: Google Sheets client not initialized.")
  | Some service =>
      match UpdateRequest_new inputs with
      | Raise e => ret (failure (fstr ["Invalid input for update: "; exn_str e]))
      | Ok update_request =>
          let body := VDict [("values", ur_values update_request)] in
          try_except
            (let request_params :=
               [("spreadsheetId", VStr (ur_spreadsheet_id update_request));
                ("range", VStr (ur_range update_request));
                ("valueInputOption", ur_value_input_option update_request);
                ("body", body)] in
             result <- call_remote (values_update_execute service (VDict request_params)) ;;
             spreadsheet_id <- lift (py_get result "spreadsheetId") ;;
             updated_range <- lift (py_get result "updatedRange") ;;
             updated_rows <- lift (py_get result "updatedRows") ;;
             updated_columns <- lift (py_get result "updatedColumns") ;;
             updated_cells <- lift (py_get result "updatedCells") ;;
             let output_response :=
               VDict [("spreadsheet_id", spreadsheet_id);
                      ("updated_range", updated_range);
                      ("updated_rows", updated_rows);
                      ("updated_columns", updated_columns);
                      ("updated_cells", updated_cells)] in
             ret (success output_response))
            (except_api "update")
      end
  end.

End Tools.

(** *** The tool descriptors *)

(** [ToolInputSchema(name=..., description=..., type=..., required=...)];
    [example] defaults to [None], and a keyword that is not a field of the
    model ([items_type]) is dropped by pydantic. *)
Definition input_schema (n d t : string) (r : bool) (ex : value) : ToolInputSchema :=
  {| in_name := n; in_description := d; in_type := t; in_required := r; in_example := ex |}.

Definition prop (t d : string) : value :=
  VDict [("type", VStr t); ("description", VStr d)].

Definition get_tavily_search_tool_definition (_ : unit) : ToolDefinition :=
  {| tool_name := "tavily_search";
     description := "Performs a web search using the Tavily API and returns a list of relevant results including snippets and URLs.";
     inputs :=
       [input_schema "query" "The search query string." "string" true
          (VStr "latest news on AI model advancements");
        input_schema "max_results"
          "The maximum number of search results to return. Default is 5 (Min:1, Max:20)."
          "integer" false (VInt 3)];
     output :=
       {| out_type := "object";
          out_description := VStr "An object containing the status of the search and a list of search results from Tavily.";
          out_properties :=
            VDict [("query", prop "string" "The original query used for the search.");
                   ("response_time", prop "number" "Time taken for the search.");
                   ("results",
                    VDict [("type", VStr "array");
                           ("description", VStr "A list of search result items from Tavily.");
                           ("items",
                            VDict [("type", VStr "object");
                                   ("properties",
                                    VDict [("title", prop "string" "Title of the search result.");
                                           ("url", prop "string" "URL of the search result.");
                                           ("content", prop "string" "Snippet or summary of the content.");
                                           ("score", prop "number" "Relevance score from Tavily.");
                                           ("raw_content",
                                            VDict [("type", VStr "string");
                                                   ("description", VStr "Raw content (if available from Tavily).");
                                                   ("nullable", VBool true)])])])])];
          out_items := VNone;
          out_example :=
            VDict [("query", VStr "example query");
                   ("response_time", VFloat (1 # 2));
                   ("results",
                    VList [VDict [("title", VStr "Example Tavily Result");
                                  ("url", VStr "https://example.com/tavily-result");
                                  ("content", VStr "Snippet of the Tavily search result...");
                                  ("score", VFloat (23 # 25));
                                  ("raw_content", VNone)]])] |} |}.

Definition get_google_sheets_append_tool_definition (_ : unit) : ToolDefinition :=
  {| tool_name := "google_sheets_append";
     description := "Appends values to a Google Sheet. Finds a table in the specified range and appends data after the last row.";
     inputs :=
       [input_schema "spreadsheet_id" "The ID of the spreadsheet." "string" true VNone;
        input_schema "range"
          "The A1 notation of a range (e.g., 'Sheet1!A1:C2' or 'Sheet1'). Values are appended after the last row of the table found in this range."
          "string" true VNone;
        input_schema "values"
          "A list of rows to append. Each row is a list of cell values (e.g., [['data1', 'data2'], ['data3', 'data4']])."
          "array" true VNone;
        input_schema "value_input_option"
          "How input data is interpreted. Options: 'RAW', 'USER_ENTERED'. Default: 'USER_ENTERED'."
          "string" false VNone;
        input_schema "insert_data_option"
          "How data is inserted. Options: 'OVERWRITE', 'INSERT_ROWS'. Default: Appends after table, may overwrite."
          "string" false VNone];
     output :=
       {| out_type := "object";
          out_description := VStr "Result of the append operation.";
          out_properties :=
            VDict [("spreadsheet_id", prop "string" "ID of the spreadsheet.");
                   ("table_range", prop "string" "The range the data was appended to (e.g., 'Sheet1!A1:D5').");
                   ("updates", prop "object" "Details of the update (updatedCells, updatedRange, etc.).")];
          out_items := VNone;
          out_example := VNone |} |}.

Definition get_google_sheets_read_tool_definition (_ : unit) : ToolDefinition :=
  {| tool_name := "google_sheets_read";
     description := "Reads values from a Google Sheet.";
     inputs :=
       [input_schema "spreadsheet_id" "The ID of the spreadsheet." "string" true VNone;
        input_schema "range" "The A1 notation of the range to read (e.g., 'Sheet1!A1:B5')."
          "string" true VNone;
        input_schema "major_dimension" "ROWS or COLUMNS for result. Default: ROWS."
          "string" false VNone;
        input_schema "value_render_option"
          "How values are rendered (e.g., FORMATTED_VALUE). Default: FORMATTED_VALUE"
          "string" false VNone;
        input_schema "date_time_render_option"
          "How date/time is rendered (e.g., SERIAL_NUMBER). Default: SERIAL_NUMBER"
          "string" false VNone];
     output :=
       {| out_type := "object";
          out_description := VStr "The data read from the sheet.";
          out_properties :=
            VDict [("spreadsheet_id", prop "string" "ID of the spreadsheet.");
                   ("range", prop "string" "The A1 range that was read.");
                   ("major_dimension", prop "string" "Major dimension of the values (ROWS or COLUMNS).");
                   ("values",
                    VDict [("type", VStr "array"); ("items_type", VStr "array");
                           ("description", VStr "The data read from the sheet as a list of rows (or columns if major_dimension is COLUMNS).")])];
          out_items := VNone;
          out_example := VNone |} |}.

Definition get_google_sheets_update_tool_definition (_ : unit) : ToolDefinition :=
  {| tool_name := "google_sheets_update";
     description := "Updates (writes) values to a specific range in a Google Sheet.";
     inputs :=
       [input_schema "spreadsheet_id" "The ID of the spreadsheet." "string" true VNone;
        input_schema "range" "The A1 notation of the range to write (e.g., 'Sheet1!A1:B2')."
          "string" true VNone;
        input_schema "values"
          "A list of rows to write. Each row is a list of cell values (e.g., [['newA1', 'newB1'], ['newA2', 'newB2']])."
          "array" true VNone;
        input_schema "value_input_option"
          "How input data is interpreted. Options: 'RAW', 'USER_ENTERED'. Default: 'USER_ENTERED'."
          "string" false VNone];
     output :=
       {| out_type := "object";
          out_description := VStr "Result of the update operation.";
          out_properties :=
            VDict [("spreadsheet_id", prop "string" "ID of the spreadsheet.");
                   ("updated_range", prop "string" "The A1 range that was updated.");
                   ("updated_rows", prop "integer" "Number of rows updated.");
                   ("updated_columns", prop "integer" "Number of columns updated.");
                   ("updated_cells", prop "integer" "Total cells updated.")];
          out_items := VNone;
          out_example := VNone |} |}.

(** *** The function objects of the repository, and the environment they make *)

Module Fn.
Definition execute_tavily_search : fn := 0%nat.
Definition initialize_tavily_search_tool : fn := 1%nat.
Definition execute_google_sheets_append : fn := 2%nat.
Definition execute_google_sheets_read : fn := 3%nat.
Definition execute_google_sheets_update : fn := 4%nat.
Definition initialize_google_sheets_tool : fn := 5%nat.
End Fn.

Section Repository.

Context {ext : External}.

(** A function object that is none of the repository's is not modelled
    further: calling it raises. *)
Definition repository_exec (f : fn) (inputs : value) : M ToolWorld value :=
  if is_ f Fn.execute_tavily_search then execute_tavily_search inputs
  else if is_ f Fn.execute_google_sheets_append then execute_google_sheets_append inputs
  else if is_ f Fn.execute_google_sheets_read then execute_google_sheets_read inputs
  else if is_ f Fn.execute_google_sheets_update then execute_google_sheets_update inputs
  else raise (TypeError "not an executor of this repository").

Definition repository_init (f : fn) : M ToolWorld unit :=
  if is_ f Fn.initialize_tavily_search_tool then initialize_tavily_search_tool
  else if is_ f Fn.initialize_google_sheets_tool then initialize_google_sheets_tool
  else raise (TypeError "not an initializer of this repository").

Definition repository_name (f : fn) : option string :=
  if is_ f Fn.execute_tavily_search then Some "execute_tavily_search"
  else if is_ f Fn.initialize_tavily_search_tool then Some "initialize_tavily_search_tool"
  else if is_ f Fn.execute_google_sheets_append then Some "execute_google_sheets_append"
  else if is_ f Fn.execute_google_sheets_read then Some "execute_google_sheets_read"
  else if is_ f Fn.execute_google_sheets_update then Some "execute_google_sheets_update"
  else if is_ f Fn.initialize_google_sheets_tool then Some "initialize_google_sheets_tool"
  else Some "<lambda>".

Definition repository : Environment :=
  {| World := ToolWorld;
     exec_behaviour := repository_exec;
     init_behaviour := repository_init;
     fn_name := repository_name |}.

(** The statements that available_tools/__init__.py runs when imported. *)
Definition available_tools : M (@state repository) unit :=
  register_tool "tavily_search" get_tavily_search_tool_definition
    Fn.execute_tavily_search (Some Fn.initialize_tavily_search_tool) false ;;
  register_tool "google_sheets_append" get_google_sheets_append_tool_definition
    Fn.execute_google_sheets_append (Some Fn.initialize_google_sheets_tool) true ;;
  register_tool "google_sheets_read" get_google_sheets_read_tool_definition
    Fn.execute_google_sheets_read (Some Fn.initialize_google_sheets_tool) true ;;
  register_tool "google_sheets_update" get_google_sheets_update_tool_definition
    Fn.execute_google_sheets_update (Some Fn.initialize_google_sheets_tool) true.

(** The same four calls, as data. *)
Definition tavily_search_registration : registration :=
  {| reg_tool_name := "tavily_search";
     reg_definition_getter := get_tavily_search_tool_definition;
     reg_executor := Fn.execute_tavily_search;
     reg_initializer := Some Fn.initialize_tavily_search_tool;
     reg_is_initializer_shared := false |}.

Definition google_sheets_append_registration : registration :=
  {| reg_tool_name := "google_sheets_append";
     reg_definition_getter := get_google_sheets_append_tool_definition;
     reg_executor := Fn.execute_google_sheets_append;
     reg_initializer := Some Fn.initialize_google_sheets_tool;
     reg_is_initializer_shared := true |}.

Definition google_sheets_read_registration : registration :=
  {| reg_tool_name := "google_sheets_read";
     reg_definition_getter := get_google_sheets_read_tool_definition;
     reg_executor := Fn.execute_google_sheets_read;
     reg_initializer := Some Fn.initialize_google_sheets_tool;
     reg_is_initializer_shared := true |}.

Definition google_sheets_update_registration : registration :=
  {| reg_tool_name := "google_sheets_update";
     reg_definition_getter := get_google_sheets_update_tool_definition;
     reg_executor := Fn.execute_google_sheets_update;
     reg_initializer := Some Fn.initialize_google_sheets_tool;
     reg_is_initializer_shared := true |}.

Definition registrations : list registration :=
  [tavily_search_registration; google_sheets_append_registration;
   google_sheets_read_registration; google_sheets_update_registration].

End Repository.

(** ** The schema endpoint of mcp_server/main.py *)

(** [ServerSchemaResponse] of mcp_server/models.py *)
Record ServerSchemaResponse : Type := {
  schema_name : string;
  schema_description : string;
  schema_version : string;
  schema_tools : list ToolDefinition
}.

(** [app.version] *)
Definition app_version : string := "1.0.0".

Section Schema.

Context {env : Environment}.

Definition get_server_schema : M state ServerSchemaResponse :=
  tools_definitions <- get_all_tool_definitions ;;
  ret {| schema_name := "Unified MCP Tool Server";
         schema_description :=
           "Provides access to various tools via the MCP JSON-RPC interface. This schema describes the server and its available tools.";
         schema_version := app_version;
         schema_tools := tools_definitions |}.

End Schema.

(** ** Vocabulary of the statements *)

(** The initializers a trace shows as called, in order. *)
Fixpoint inits_of (t : list event) : list fn :=
  match t with
  | [] => []
  | EvInit f :: t' => f :: inits_of t'
  | _ :: t' => inits_of t'
  end.

(** A list without its repetitions, each element at its first position. *)
Fixpoint first_seen (l : list fn) : list fn :=
  match l with
  | [] => []
  | f :: l' => f :: filter (fun g => negb (is_ g f)) (first_seen l')
  end.

(** The two shapes of an Invocation Outcome: a dict with exactly the keys
    [status], [output] and [error], in any order. *)
Definition is_success_outcome (v : value) : bool :=
  match v with
  | VDict d =>
      (length d =? 3)%nat &&
      match dict_get "status" d, dict_get "output" d, dict_get "error" d with
      | Some (VStr st), Some _, Some VNone => String.eqb st "success"
      | _, _, _ => false
      end
  | _ => false
  end.

Definition is_failure_outcome (v : value) : bool :=
  match v with
  | VDict d =>
      (length d =? 3)%nat &&
      match dict_get "status" d, dict_get "output" d, dict_get "error" d with
      | Some (VStr st), Some VNone, Some (VStr _) => String.eqb st "failure"
      | _, _, _ => false
      end
  | _ => false
  end.

Definition is_invocation_outcome (v : value) : bool :=
  is_success_outcome v || is_failure_outcome v.

(** [k in v] for a value that is a dict. *)
Definition has_key (k : string) (v : value) : bool :=
  match v with VDict d => dict_mem k d | _ => false end.

(** Whenever the computation returns, what it returns satisfies [P]. *)
Definition returns_only {S A} (P : A -> Prop) (m : M S A) : Prop :=
  forall s a s', m s = (Ok a, s') -> P a.

(** The computation returns from every state: it does not raise. *)
Definition never_raises {S A} (m : M S A) : Prop :=
  forall s, exists a s', m s = (Ok a, s').

(** Whenever the computation raises, what it raises satisfies [P]. *)
Definition raises_only {S A} (P : exn -> Prop) (m : M S A) : Prop :=
  forall s e s', m s = (Raise e, s') -> P e.

(** What [bytes.decode()] raises. *)
Definition is_decode_error (e : exn) : Prop := exists msg, e = UnicodeDecodeError msg.

(** However the computation ends, it ends in a state where [P] holds if it
    started in one. *)
Definition keeps {S A} (P : S -> Prop) (m : M S A) : Prop :=
  forall s r s', P s -> m s = (r, s') -> P s'.

(** The value has one of the two shapes of an Invocation Outcome. *)
Definition well_formed (v : value) : Prop := is_invocation_outcome v = true.

(** What [execute_google_sheets_read] returns for a range without values. *)
Definition empty_spreadsheet_data : value :=
  VDict [("status", VStr "failure"); ("error", VStr "Empty spreadsheet data")].

Section Passes.

Context {env : Environment}.

Definition register (r : registration) : M state unit :=
  register_tool (reg_tool_name r) (reg_definition_getter r) (reg_executor r)
                (reg_initializer r) (reg_is_initializer_shared r).

(** A registration pass: the calls run in order, as the statements of a
    module do; the first one that raises ends the pass. *)
Fixpoint register_all (rs : list registration) : M state unit :=
  match rs with
  | [] => ret tt
  | r :: rs' => register r ;; register_all rs'
  end.

(** The registration tables agree with each other. *)
Definition tables_consistent (s : state) : Prop :=
  NoDup (dict_keys (TOOL_DEFINITIONS s)) /\
  dict_keys (TOOL_DEFINITIONS s) = dict_keys (TOOL_EXECUTORS s) /\
  Forall (fun kv => tool_name (snd kv) = fst kv) (TOOL_DEFINITIONS s).

(** The callable has a [__name__]. *)
Definition named (f : fn) : Prop := fn_name f <> None.

(** The world after the calls of these initializers, in order. *)
Definition worlds_after (called : list fn) (w : World) : World :=
  fold_left (fun w f => snd (init_behaviour f w)) called w.

(** [s2] is [s] after a run that left the tables alone and showed [new]. *)
Definition ran (s s2 : state) (new : list event) : Prop :=
  TOOL_DEFINITIONS s2 = TOOL_DEFINITIONS s /\
  TOOL_EXECUTORS s2 = TOOL_EXECUTORS s /\
  TOOL_INITIALIZERS s2 = TOOL_INITIALIZERS s /\
  _tool_registry s2 = _tool_registry s /\
  trace s2 = trace s ++ new.

(** The registry that the loop of [discover_and_register_tools] builds from
    the items of the definitions table, as a function of the tables. *)
Definition registry_of (execs : dict fn) (items : list (string * ToolDefinition))
    (r : dict RegisteredTool) : dict RegisteredTool :=
  fold_left
    (fun r kd =>
       match dict_get (fst kd) execs with
       | Some e => dict_set (fst kd)
                     {| name := fst kd; definition := snd kd; execute_func := e |} r
       | None => r
       end)
    items r.

(** Every entry of the dispatcher's registry is filed under its own name and
    has its definition and its executor in the registration tables. *)
Definition registry_consistent (s : state) : Prop :=
  forall k tool,
    dict_get k (_tool_registry s) = Some tool ->
    name tool = k /\
    tool_name (definition tool) = k /\
    dict_get k (TOOL_DEFINITIONS s) = Some (definition tool) /\
    dict_get k (TOOL_EXECUTORS s) = Some (execute_func tool).

(** The request passes the three envelope checks of [mcp_call_tool] with
    this [tool_id] and these [inputs]. *)
Definition passes_envelope (request : JsonRpcRequest) (tool_id : string) (inputs : dict value) : Prop :=
  req_method request = "mcp_call_tool" /\
  isinstance_dict (req_params request) = true /\
  value_get (req_params request) "tool_id" = VStr tool_id /\
  tool_id <> EmptyString /\
  value_get (req_params request) "inputs" = VDict inputs.

(** The conditions of the three [if]s that guard [mcp_call_tool]. *)
Definition params_check_fails (request : JsonRpcRequest) : bool :=
  negb (truthy (req_params request)) || negb (isinstance_dict (req_params request)).

Definition tool_id_check_fails (request : JsonRpcRequest) : bool :=
  negb (truthy (value_get (req_params request) "tool_id"))
  || negb (isinstance_str (value_get (req_params request) "tool_id")).

Definition inputs_check_fails (request : JsonRpcRequest) : bool :=
  is_None (value_get (req_params request) "inputs")
  || negb (isinstance_dict (value_get (req_params request) "inputs")).

(** The response the handler builds from what [call_tool] returned. *)
Definition respond (request : JsonRpcRequest) (tool_id : string) (payload : value) : JsonRpcResponse :=
  if truthy payload then response_result payload (req_id request)
  else response_error (-32601)
         (fstr ["Method not found or error: Tool with id '"; tool_id;
                "' is not available or failed execution."])
         (req_id request).

(** The code of a response's [error] object. *)
Definition error_code (r : JsonRpcResponse) : value := value_get (rsp_error r) "code".

End Passes.

(** ** Environments to run the model in *)

(** Function objects that are not the repository's: executors that return a
    success outcome, a failure outcome, [None] and [{}], one that raises,
    and three initializers: one that returns, one that raises, and a
    [functools.partial] of one that raises, which has no [__name__]. *)
Module Sample.

Definition echo : fn := 10%nat.
Definition empty_range : fn := 11%nat.
Definition crash : fn := 12%nat.
Definition returns_None : fn := 13%nat.
Definition returns_empty_dict : fn := 14%nat.
Definition connect : fn := 20%nat.
Definition misconfigured : fn := 21%nat.
Definition misconfigured_partial : fn := 22%nat.

Definition exec (f : fn) (inputs : value) (w : unit) : res value * unit :=
  if is_ f echo then (Ok (success inputs), w)
  else if is_ f empty_range then (Ok (failure "the spreadsheet range was empty"), w)
  else if is_ f crash then (Raise (Exception "division by zero"), w)
  else if is_ f returns_None then (Ok VNone, w)
  else (Ok (VDict []), w).

Definition init (f : fn) (w : unit) : res unit * unit :=
  if is_ f misconfigured then (Raise (Exception "missing credential"), w)
  else if is_ f misconfigured_partial then (Raise (Exception "missing credential"), w)
  else (Ok tt, w).

Definition init_name (f : fn) : option string :=
  if is_ f misconfigured_partial then None
  else if is_ f misconfigured then Some "misconfigured"
  else Some "connect".

Definition environment : Environment :=
  {| World := unit;
     exec_behaviour := exec;
     init_behaviour := init;
     fn_name := init_name |}.

Definition describe (n : string) (_ : unit) : ToolDefinition :=
  {| tool_name := n; description := "a sample tool"; inputs := [];
     output := {| out_type := "object"; out_description := VNone;
                  out_properties := VNone; out_items := VNone; out_example := VNone |} |}.

Definition tool (n : string) (f : fn) : RegisteredTool :=
  {| name := n; definition := describe n tt; execute_func := f |}.

(** A server with one tool per sample executor. *)
Definition serving : @state environment :=
  mkState (env := environment) [] [] []
    [("echo", tool "echo" echo); ("read", tool "read" empty_range);
     ("crash", tool "crash" crash); ("none", tool "none" returns_None);
     ("empty", tool "empty" returns_empty_dict)]
    tt [].

(** Three registered initializers, the first and the last the same
    function object, which raises. *)
Definition registered : @state environment :=
  mkState (env := environment) [] [] [misconfigured; connect; misconfigured] [] tt [].

(** Two initializers listed, the first a [functools.partial] that raises. *)
Definition registered_partial : @state environment :=
  mkState (env := environment) [] [] [misconfigured_partial; connect] [] tt [].

(** A pass of three registrations: a tool whose initializer is that
    partial, then two tools that share the initializer [connect]. *)
Definition tool_a : registration :=
  {| reg_tool_name := "a"; reg_definition_getter := describe "a"; reg_executor := echo;
     reg_initializer := Some misconfigured_partial; reg_is_initializer_shared := false |}.

Definition tool_b : registration :=
  {| reg_tool_name := "b"; reg_definition_getter := describe "b"; reg_executor := echo;
     reg_initializer := Some connect; reg_is_initializer_shared := true |}.

Definition tool_c : registration :=
  {| reg_tool_name := "c"; reg_definition_getter := describe "c"; reg_executor := crash;
     reg_initializer := Some connect; reg_is_initializer_shared := true |}.

Definition pass : list registration := [tool_a; tool_b; tool_c].

(** [{"jsonrpc": "2.0", "method": "mcp_call_tool", "params": p, "id": 7}] *)
Definition call (p : value) : JsonRpcRequest :=
  {| req_jsonrpc := "2.0"; req_method := "mcp_call_tool"; req_params := p; req_id := VInt 7 |}.

Definition call_tool_id (tool_id : string) (inputs : dict value) : JsonRpcRequest :=
  call (VDict [("tool_id", VStr tool_id); ("inputs", VDict inputs)]).

End Sample.

(** A backend whose services give the answers of a script, in order, and
    whose request records need their [str] fields to be [str]. *)
Module Scripted.

Definition answer (script : list (res value)) : res value * list (res value) :=
  match script with
  | [] => (Raise (Exception "connection refused"), [])
  | a :: rest => (a, rest)
  end.

Definition read_request (inputs : value) : res ReadRequest :=
  match value_get inputs "spreadsheet_id", value_get inputs "range" with
  | VStr i, VStr r =>
      Ok {| rr_spreadsheet_id := i; rr_range := r;
            rr_major_dimension := value_get inputs "major_dimension";
            rr_value_render_option := value_get inputs "value_render_option";
            rr_date_time_render_option := value_get inputs "date_time_render_option" |}
  | _, _ => Raise (ValidationError "validation error for ReadRequest")
  end.

Definition append_request (inputs : value) : res AppendRequest :=
  match value_get inputs "spreadsheet_id", value_get inputs "range", value_get inputs "values" with
  | VStr i, VStr r, VList rows =>
      Ok {| ar_spreadsheet_id := i; ar_range := r;
            ar_value_input_option :=
              str_value (value_get_default inputs "value_input_option" (VStr "USER_ENTERED"));
            ar_values := VList rows;
            ar_insert_data_option := value_get inputs "insert_data_option" |}
  | _, _, _ => Raise (ValidationError "validation error for AppendRequest")
  end.

Definition update_request (inputs : value) : res UpdateRequest :=
  match value_get inputs "spreadsheet_id", value_get inputs "range", value_get inputs "values" with
  | VStr i, VStr r, VList rows =>
      Ok {| ur_spreadsheet_id := i; ur_range := r; ur_values := VList rows;
            ur_value_input_option :=
              value_get_default inputs "value_input_option" (VStr "USER_ENTERED") |}
  | _, _, _ => Raise (ValidationError "validation error for UpdateRequest")
  end.

Definition backend : External :=
  {| Remote := list (res value);
     TavilyClient := unit;
     SheetsService := unit;
     TAVILY_API_KEY := VStr "tvly-key";
     TavilyClient_new := fun _ => Ok tt;
     tavily_client_search := fun _ _ _ _ => answer;
     google_auth_default_and_build := fun script => (Ok tt, script);
     AppendRequest_new := append_request;
     ReadRequest_new := read_request;
     UpdateRequest_new := update_request;
     values_append_execute := fun _ _ => answer;
     values_get_execute := fun _ _ => answer;
     values_update_execute := fun _ _ => answer |}.

(** The same backend in a process that has neither the Tavily key nor
    credentials for Google. *)
Definition offline : External :=
  {| Remote := list (res value);
     TavilyClient := unit;
     SheetsService := unit;
     TAVILY_API_KEY := VNone;
     TavilyClient_new := fun _ => Ok tt;
     tavily_client_search := fun _ _ _ _ => answer;
     google_auth_default_and_build :=
       fun script => (Raise (Exception "default credentials were not found"), script);
     AppendRequest_new := append_request;
     ReadRequest_new := read_request;
     UpdateRequest_new := update_request;
     values_append_execute := fun _ _ => answer;
     values_get_execute := fun _ _ => answer;
     values_update_execute := fun _ _ => answer |}.

(** The process before and after the import of available_tools. *)
Definition fresh : @state (@repository backend) :=
  initial_state (env := @repository backend) (mkToolWorld (ext := backend) None None []).

Definition imported : @state (@repository backend) :=
  snd (register_all (env := @repository backend) registrations fresh).

(** The process after the import of available_tools and the startup of the
    server, with the services following [script]. *)
Definition started (script : list (res value)) : @state (@repository backend) :=
  snd ((available_tools (ext := backend) ;; discover_and_register_tools)
         (initial_state (env := @repository backend)
            (mkToolWorld (ext := backend) None None script))).

End Scripted.

(** * Properties *)

(** ** Dictionaries *)

Section DictFacts.

Context {V : Type}.
Implicit Types (k : string) (v : V) (d : dict V).

Lemma dict_get_set_eq k v d : dict_get k (dict_set k v d) = Some v.
Proof.
  induction d as [|[k' v'] d IH]; simpl.
  - now rewrite String.eqb_refl.
  - destruct (String.eqb k k') eqn:E; simpl.
    + now rewrite String.eqb_refl.
    + now rewrite E.
Qed.

Lemma dict_get_set_neq k k' v d :
  k' <> k -> dict_get k' (dict_set k v d) = dict_get k' d.
Proof.
  intros Hne. induction d as [|[k0 v0] d IH]; simpl.
  - apply String.eqb_neq in Hne. now rewrite Hne.
  - destruct (String.eqb k k0) eqn:E; simpl.
    + apply String.eqb_eq in E. subst k0.
      apply String.eqb_neq in Hne. now rewrite Hne.
    + now rewrite IH.
Qed.

Lemma dict_get_In k v d : dict_get k d = Some v -> In (k, v) d.
Proof.
  induction d as [|[k' v'] d IH]; simpl; [discriminate|].
  destruct (String.eqb k k') eqn:E.
  - apply String.eqb_eq in E. intros [= ->]. left. now subst.
  - intros H. right. auto.
Qed.

Lemma dict_get_None_keys k d : dict_get k d = None <-> ~ In k (dict_keys d).
Proof.
  induction d as [|[k' v'] d IH]; simpl.
  - tauto.
  - destruct (String.eqb k k') eqn:E.
    + apply String.eqb_eq in E. subst. split; [discriminate | intros H; exfalso; auto].
    + apply String.eqb_neq in E. rewrite IH. split.
      * intros H [H1|H1]; [now subst | auto].
      * intros H H1. apply H. now right.
Qed.

Lemma In_dict_get k v d : NoDup (dict_keys d) -> In (k, v) d -> dict_get k d = Some v.
Proof.
  induction d as [|[k' v'] d IH]; simpl; [tauto|].
  intros Hnd [H|H].
  - injection H as -> ->. now rewrite String.eqb_refl.
  - inversion Hnd as [|? ? Hnotin Hnd']; subst.
    destruct (String.eqb k k') eqn:E.
    + apply String.eqb_eq in E. subst. exfalso. apply Hnotin.
      change k' with (fst (k', v)). now apply in_map.
    + auto.
Qed.

(** Assignment keeps the keys when the key is present and appends it when
    it is not. *)
Lemma dict_keys_set k v d :
  dict_keys (dict_set k v d) =
  if dict_mem k d then dict_keys d else dict_keys d ++ [k].
Proof.
  unfold dict_mem. induction d as [|[k' v'] d IH]; simpl; [reflexivity|].
  destruct (String.eqb k k') eqn:E; simpl.
  - apply String.eqb_eq in E. now subst.
  - rewrite IH. now destruct (dict_get k d).
Qed.

Lemma dict_mem_keys k d : dict_mem k d = true <-> In k (dict_keys d).
Proof.
  unfold dict_mem. destruct (dict_get k d) eqn:E.
  - split; [intros _|reflexivity].
    apply dict_get_In in E. change k with (fst (k, v)). now apply in_map.
  - apply dict_get_None_keys in E. split; [discriminate | tauto].
Qed.

Lemma dict_set_NoDup k v d : NoDup (dict_keys d) -> NoDup (dict_keys (dict_set k v d)).
Proof.
  intros Hnd. rewrite dict_keys_set. destruct (dict_mem k d) eqn:E; [assumption|].
  assert (~ In k (dict_keys d)) as Hnotin.
  { rewrite <- dict_mem_keys. now rewrite E. }
  apply NoDup_app; [assumption | repeat constructor; simpl; tauto |].
  intros x Hx [<-|[]]. tauto.
Qed.

End DictFacts.

(** Two dictionaries with the same keys still have the same keys after the
    same key is assigned in both. *)
Lemma dict_keys_set_same {V W} (k : string) (v : V) (w : W) (d : dict V) (e : dict W) :
  dict_keys d = dict_keys e ->
  dict_keys (dict_set k v d) = dict_keys (dict_set k w e).
Proof.
  intros H. rewrite !dict_keys_set.
  assert (dict_mem k d = dict_mem k e) as ->.
  { apply eq_true_iff_eq. rewrite !dict_mem_keys. now rewrite H. }
  now rewrite H.
Qed.

(** ** Registration *)

Section RegistrationProperties.

Context {env : Environment}.

Lemma dict_set_consistent (k : string) (d : ToolDefinition) (defs : dict ToolDefinition) :
  tool_name d = k ->
  Forall (fun kv => tool_name (snd kv) = fst kv) defs ->
  Forall (fun kv => tool_name (snd kv) = fst kv) (dict_set k d defs).
Proof.
  intros Hk. induction 1 as [|[k' d'] defs Hhd Htl IH]; simpl.
  - now repeat constructor.
  - destruct (String.eqb k k'); constructor; auto.
Qed.

(** What a call of [register_tool] with matching names does to the state. *)
Lemma register_tool_accepts tool_name_ getter executor initializer shared s :
  tool_name (getter tt) = tool_name_ ->
  register_tool tool_name_ getter executor initializer shared s =
  (Ok tt,
   set_TOOL_INITIALIZERS
     (match initializer with
      | Some init =>
          if negb shared || negb (fn_in init (TOOL_INITIALIZERS s))
          then TOOL_INITIALIZERS s ++ [init] else TOOL_INITIALIZERS s
      | None => TOOL_INITIALIZERS s
      end)
     (set_TOOL_EXECUTORS (dict_set tool_name_ executor (TOOL_EXECUTORS s))
        (set_TOOL_DEFINITIONS (dict_set tool_name_ (getter tt) (TOOL_DEFINITIONS s)) s))).
Proof.
  intros Hname. unfold register_tool. rewrite Hname, String.eqb_refl. simpl.
  destruct s as [defs execs inits reg w t].
  destruct initializer as [init|]; unfold bind, modify, gets, ret; simpl.
  - destruct (negb shared || negb (fn_in init inits)); reflexivity.
  - reflexivity.
Qed.

Lemma register_tool_rejects tool_name_ getter executor initializer shared s :
  tool_name (getter tt) <> tool_name_ ->
  register_tool tool_name_ getter executor initializer shared s =
  (Raise (ValueError (fstr ["Tool name mismatch for "; tool_name_;
                            ": definition has "; tool_name (getter tt)])), s).
Proof.
  intros Hname. unfold register_tool.
  assert (String.eqb tool_name_ (tool_name (getter tt)) = false) as ->.
  { apply String.eqb_neq. congruence. }
  reflexivity.
Qed.

(** Either way the call ends, and the tables stay consistent. *)
Lemma register_tool_preserves tool_name_ getter executor initializer shared s :
  tables_consistent s ->
  tables_consistent (snd (register_tool tool_name_ getter executor initializer shared s)).
Proof.
  intros (Hnd & Hkeys & Hnames).
  destruct (string_dec (tool_name (getter tt)) tool_name_) as [Heq|Hne].
  - rewrite register_tool_accepts by assumption.
    destruct s as [defs execs inits reg w t]. cbn in *.
    repeat split.
    + now apply dict_set_NoDup.
    + now apply dict_keys_set_same.
    + now apply dict_set_consistent.
  - rewrite register_tool_rejects by assumption. now repeat split.
Qed.

Lemma register_all_preserves rs : forall s,
  tables_consistent s -> tables_consistent (snd (register_all rs s)).
Proof.
  induction rs as [|r rs IH]; intros s Hs; simpl; [assumption|].
  unfold bind, register.
  pose proof (register_tool_preserves (reg_tool_name r) (reg_definition_getter r)
                (reg_executor r) (reg_initializer r) (reg_is_initializer_shared r) Hs) as H1.
  destruct (register_tool _ _ _ _ _ s) as [[[]|e] s1]; simpl in *; auto.
Qed.

Lemma initial_state_consistent w : tables_consistent (initial_state w).
Proof. repeat split; simpl; constructor. Qed.

End RegistrationProperties.

(** ** Initializers *)

Lemma fn_in_In (f : fn) (l : list fn) : fn_in f l = true <-> In f l.
Proof.
  unfold fn_in, is_. rewrite existsb_exists. split.
  - intros (g & Hg & E). apply Nat.eqb_eq in E. now subst.
  - intros H. exists f. split; [assumption | apply Nat.eqb_refl].
Qed.

Lemma filter_not_in_snoc (acc : list fn) (f : fn) (l : list fn) :
  filter (fun g => negb (fn_in g (acc ++ [f]))) l =
  filter (fun g => negb (fn_in g acc)) (filter (fun g => negb (is_ g f)) l).
Proof.
  induction l as [|g l IH]; simpl; [reflexivity|].
  unfold fn_in at 1. rewrite existsb_app. simpl. rewrite orb_false_r.
  fold (fn_in g acc).
  destruct (is_ g f); simpl.
  - rewrite orb_true_r. simpl. exact IH.
  - rewrite orb_false_r. destruct (fn_in g acc); simpl; now rewrite IH.
Qed.

Lemma filter_not_in_drop (acc : list fn) (f : fn) (l : list fn) :
  fn_in f acc = true ->
  filter (fun g => negb (fn_in g acc)) (filter (fun g => negb (is_ g f)) l) =
  filter (fun g => negb (fn_in g acc)) l.
Proof.
  intros Hf. induction l as [|g l IH]; simpl; [reflexivity|].
  destruct (is_ g f) eqn:E; simpl.
  - apply Nat.eqb_eq in E. subst g. now rewrite Hf.
  - now rewrite IH.
Qed.

(** The accumulator loop computes the list of first occurrences. *)
Lemma unique_loop_acc (pending : list fn) : forall acc,
  unique_loop pending acc =
  acc ++ filter (fun g => negb (fn_in g acc)) (first_seen pending).
Proof.
  induction pending as [|f l IH]; intros acc; simpl.
  - now rewrite app_nil_r.
  - destruct (fn_in f acc) eqn:E; simpl.
    + rewrite IH. now rewrite filter_not_in_drop.
    + rewrite IH, <- app_assoc. simpl. now rewrite filter_not_in_snoc.
Qed.

Lemma unique_loop_first_seen (l : list fn) : unique_loop l [] = first_seen l.
Proof.
  rewrite unique_loop_acc. simpl.
  induction (first_seen l) as [|g r IH]; simpl; [reflexivity | now rewrite IH].
Qed.

Lemma first_seen_In (f : fn) (l : list fn) : In f (first_seen l) <-> In f l.
Proof.
  induction l as [|g l IH]; simpl; [tauto|].
  rewrite filter_In, IH. unfold is_.
  destruct (Nat.eq_dec g f) as [->|Hne].
  - tauto.
  - split.
    + tauto.
    + intros [H|H]; [contradiction|]. right. split; [assumption|].
      apply negb_true_iff, Nat.eqb_neq. congruence.
Qed.



(** A list that has no repetition is its own list of first occurrences. *)
Lemma first_seen_NoDup_id (l : list fn) : NoDup l -> first_seen l = l.
Proof.
  induction 1 as [|f l Hnotin Hnd IH]; simpl; [reflexivity|].
  rewrite IH. f_equal. apply forallb_filter_id.
  apply forallb_forall. intros g Hg. unfold is_.
  apply negb_true_iff, Nat.eqb_neq. intros ->. contradiction.
Qed.

Lemma inits_of_app (t u : list event) : inits_of (t ++ u) = inits_of t ++ inits_of u.
Proof.
  induction t as [|[f|f i|line] t IH]; simpl; now rewrite ?IH.
Qed.

Section InitializerProperties.

Context {env : Environment}.

Lemma ran_refl (s : state) : ran s s [].
Proof. unfold ran. now rewrite app_nil_r. Qed.

Lemma ran_trans (s s1 s2 : state) (t u : list event) :
  ran s s1 t -> ran s1 s2 u -> ran s s2 (t ++ u).
Proof.
  unfold ran. intros (A1 & A2 & A3 & A4 & A5) (B1 & B2 & B3 & B4 & B5).
  rewrite B1, B2, B3, B4, B5, A5, app_assoc. auto.
Qed.

(** The second loop, from any state: it calls the initializers of a
    prefix of its list, in order, each call followed by the print of its
    failure if it raised; it goes through the whole list unless it raises,
    which it does with [AttributeError] only, when an initializer without
    [__name__] has raised. *)
Lemma run_initializers_outcome (l : list fn) : forall s,
  exists r s2 new rest,
    run_initializers l s = (r, s2) /\
    ran s s2 new /\
    l = inits_of new ++ rest /\
    world s2 = worlds_after (inits_of new) (world s) /\
    (r = Ok tt -> rest = []) /\
    (forall e, r = Raise e -> exists msg, e = AttributeError msg) /\
    ((forall f, In f l -> named f) -> r = Ok tt).
Proof.
  induction l as [|f l IH]; intros s.
  - exists (Ok tt), s, [], []. simpl.
    split; [reflexivity|]. split; [apply ran_refl|].
    split; [reflexivity|]. split; [reflexivity|]. split; [reflexivity|].
    split; [intros e [=] | reflexivity].
  - destruct s as [defs execs inits reg w t].
    simpl. unfold bind at 1, try_except, call_initializer. simpl.
    destruct (init_behaviour f w) as [[[]|e] w1] eqn:B; simpl.
    + match goal with |- context [run_initializers l ?st] =>
        destruct (IH st) as (r & s2 & new & rest & E & (R1 & R2 & R3 & R4 & R5)
                             & L & W & H1 & H2 & H3)
      end.
      exists r, s2, (EvInit f :: new), rest. rewrite E. simpl in *.
      split; [reflexivity|]. split.
      { unfold ran. simpl. rewrite R5, <- app_assoc. auto. }
      split; [now rewrite L|].
      split; [unfold worlds_after; simpl; rewrite B; exact W|].
      split; [exact H1|]. split; [exact H2|].
      intros Hn. apply H3. intros g Hg. apply Hn. now right.
    + unfold get_name, bind. destruct (fn_name f) as [n|] eqn:N; simpl.
      * unfold print, modify, ret. simpl.
        match goal with |- context [run_initializers l ?st] =>
          destruct (IH st) as (r & s2 & new & rest & E & (R1 & R2 & R3 & R4 & R5)
                               & L & W & H1 & H2 & H3)
        end.
        exists r, s2, (EvInit f :: EvPrint (fstr ["Error during tool initialization: "; n;
                                                  " failed with "; exn_str e]) :: new), rest.
        rewrite E. simpl in *.
        split; [reflexivity|]. split.
        { unfold ran. simpl. rewrite R5, <- !app_assoc. auto. }
        split; [now rewrite L|].
        split; [unfold worlds_after; simpl; rewrite B; exact W|].
        split; [exact H1|]. split; [exact H2|].
        intros Hn. apply H3. intros g Hg. apply Hn. now right.
      * unfold raise.
        eexists _, _, [EvInit f], l. split; [reflexivity|]. split.
        { unfold ran. simpl. auto. }
        split; [reflexivity|]. split; [unfold worlds_after; simpl; now rewrite B|].
        split; [discriminate|]. split; [intros e0 [= <-]; eauto|].
        intros Hn. exfalso. apply (Hn f); [now left | exact N].
Qed.

(** One turn of the second loop. *)
Lemma run_initializers_cons (f : fn) (l : list fn) (s : state) :
  run_initializers (f :: l) s =
  match init_behaviour f (world s) with
  | (Ok _, w1) => run_initializers l (set_world w1 (emit (EvInit f) s))
  | (Raise e, w1) =>
      match fn_name f with
      | Some n =>
          run_initializers l
            (emit (EvPrint (fstr ["Error during tool initialization: "; n;
                                  " failed with "; exn_str e]))
               (set_world w1 (emit (EvInit f) s)))
      | None =>
          (Raise (AttributeError "object has no attribute '__name__'"),
           set_world w1 (emit (EvInit f) s))
      end
  end.
Proof.
  destruct s as [defs execs inits reg w t].
  simpl. unfold bind at 1, try_except, call_initializer. simpl.
  destruct (init_behaviour f w) as [[[]|e] w1]; simpl; [reflexivity|].
  unfold get_name, bind. destruct (fn_name f) as [n|]; reflexivity.
Qed.

(** What the dispatcher's registry holds plays no part in the loop. *)
Lemma run_initializers_frame (l : list fn) : forall s reg',
  run_initializers l (set_tool_registry reg' s) =
  (fst (run_initializers l s), set_tool_registry reg' (snd (run_initializers l s))).
Proof.
  induction l as [|f l IH]; intros s reg'; [reflexivity|].
  rewrite !run_initializers_cons.
  replace (world (set_tool_registry reg' s)) with (world s) by now destruct s.
  destruct (init_behaviour f (world s)) as [[[]|e] w1].
  - rewrite <- IH. now destruct s.
  - destruct (fn_name f) as [n|].
    + rewrite <- IH. now destruct s.
    + now destruct s.
Qed.

Lemma initialize_all_tools_outcome (s : state) :
  exists r s2 new rest,
    initialize_all_tools s = (r, s2) /\
    ran s s2 new /\
    first_seen (TOOL_INITIALIZERS s) = inits_of new ++ rest /\
    world s2 = worlds_after (inits_of new) (world s) /\
    (r = Ok tt -> rest = []) /\
    (forall e, r = Raise e -> exists msg, e = AttributeError msg) /\
    ((forall f, In f (TOOL_INITIALIZERS s) -> named f) -> r = Ok tt).
Proof.
  unfold initialize_all_tools, bind, gets.
  rewrite unique_loop_first_seen.
  destruct (run_initializers_outcome (first_seen (TOOL_INITIALIZERS s)) s)
    as (r & s2 & new & rest & E & R & L & W & H1 & H2 & H3).
  exists r, s2, new, rest.
  split; [exact E|]. split; [exact R|]. split; [exact L|]. split; [exact W|].
  split; [exact H1|]. split; [exact H2|].
  intros Hn. apply H3. intros f Hf. apply Hn. now apply first_seen_In.
Qed.

Lemma initialize_all_tools_frame (s : state) reg' :
  initialize_all_tools (set_tool_registry reg' s) =
  (fst (initialize_all_tools s), set_tool_registry reg' (snd (initialize_all_tools s))).
Proof.
  unfold initialize_all_tools, bind, gets.
  destruct s as [defs execs inits reg w t]. simpl.
  apply (run_initializers_frame _ (mkState defs execs inits reg w t) reg').
Qed.

End InitializerProperties.

(** ** The dispatcher's registry *)

Section RegistryProperties.

Context {env : Environment}.

Lemma register_available_registry (items : list (string * ToolDefinition)) : forall s,
  register_available items s =
  (Ok tt, set_tool_registry (registry_of (TOOL_EXECUTORS s) items (_tool_registry s)) s).
Proof.
  induction items as [|[k d] items IH]; intros [defs execs inits reg w t].
  - reflexivity.
  - simpl. unfold bind, gets. simpl.
    destruct (dict_get k execs) as [e|]; unfold modify, ret; simpl; rewrite IH; reflexivity.
Qed.

(** Where an entry of the built registry comes from. *)
Lemma registry_of_origin execs (items : list (string * ToolDefinition)) : forall r k tool,
  dict_get k (registry_of execs items r) = Some tool ->
  dict_get k r = Some tool \/
  (name tool = k /\ In (k, definition tool) items /\
   dict_get k execs = Some (execute_func tool)).
Proof.
  induction items as [|[k0 d0] items IH]; intros r k tool H; simpl in *.
  - now left.
  - apply IH in H. destruct H as [H|(Hn & Hin & He)].
    + destruct (dict_get k0 execs) as [e|] eqn:E; [|now left].
      destruct (string_dec k k0) as [->|Hne].
      * rewrite dict_get_set_eq in H. injection H as <-. right. simpl. auto.
      * rewrite dict_get_set_neq in H by assumption. now left.
    + right. auto.
Qed.

(** With an executor for every definition, the built registry has the keys
    of the definitions table, in its order. *)
Lemma registry_of_keys execs (items : list (string * ToolDefinition)) : forall r,
  NoDup (dict_keys r ++ dict_keys items) ->
  (forall k, In k (dict_keys items) -> dict_mem k execs = true) ->
  dict_keys (registry_of execs items r) = dict_keys r ++ dict_keys items.
Proof.
  induction items as [|[k0 d0] items IH]; intros r Hnd Hex; simpl in *.
  - now rewrite app_nil_r.
  - assert (dict_mem k0 execs = true) as Hk0 by (apply Hex; now left).
    unfold dict_mem in Hk0. destruct (dict_get k0 execs) as [e|]; [|discriminate].
    assert (~ In k0 (dict_keys r)) as Hfresh.
    { intros Hin. apply NoDup_remove_2 in Hnd. apply Hnd, in_or_app. now left. }
    rewrite IH.
    + rewrite dict_keys_set.
      assert (dict_mem k0 r = false) as ->.
      { apply not_true_is_false. now rewrite dict_mem_keys. }
      now rewrite <- app_assoc.
    + rewrite dict_keys_set.
      assert (dict_mem k0 r = false) as ->.
      { apply not_true_is_false. now rewrite dict_mem_keys. }
      rewrite <- app_assoc. exact Hnd.
    + intros k Hk. apply Hex. now right.
Qed.

(** [discover_and_register_tools] returns: it runs the initializers, leaves
    the registration tables alone and, when the initializers' pass has
    returned, rebuilds the registry from the tables; when the pass has
    raised, the registry is left empty. *)
Lemma discover_and_register_tools_outcome (s : state) :
  exists s2 new,
    discover_and_register_tools s = (Ok tt, s2) /\
    TOOL_DEFINITIONS s2 = TOOL_DEFINITIONS s /\
    TOOL_EXECUTORS s2 = TOOL_EXECUTORS s /\
    TOOL_INITIALIZERS s2 = TOOL_INITIALIZERS s /\
    trace s2 = trace s ++ new /\
    trace (snd (initialize_all_tools s)) = trace s ++ new /\
    world s2 = world (snd (initialize_all_tools s)) /\
    _tool_registry s2 =
      match fst (initialize_all_tools s) with
      | Ok _ => registry_of (TOOL_EXECUTORS s) (TOOL_DEFINITIONS s) []
      | Raise _ => []
      end.
Proof.
  unfold discover_and_register_tools, bind at 1, modify, try_except.
  unfold bind at 1. rewrite initialize_all_tools_frame.
  destruct (initialize_all_tools_outcome s)
    as (r & s1 & new & rest & E & (D & X & I & R & T) & _).
  rewrite E. simpl fst. simpl snd.
  destruct r as [[]|e].
  - unfold bind, gets. rewrite register_available_registry.
    eexists _, new. split; [reflexivity|].
    destruct s as [defs execs inits reg w t], s1 as [defs1 execs1 inits1 reg1 w1 t1].
    simpl in *. subst. auto 10.
  - unfold ret. eexists _, new. split; [reflexivity|].
    destruct s as [defs execs inits reg w t], s1 as [defs1 execs1 inits1 reg1 w1 t1].
    simpl in *. subst. auto 10.
Qed.

(** Whether or not the initializers' pass has returned, the registry that
    the startup leaves agrees with the tables; it has their keys when the
    pass has returned. *)
Lemma discover_makes_registry_consistent (s s2 : state) :
  tables_consistent s ->
  discover_and_register_tools s = (Ok tt, s2) ->
  registry_consistent s2 /\
  NoDup (dict_keys (_tool_registry s2)) /\
  (fst (initialize_all_tools s) = Ok tt ->
   dict_keys (_tool_registry s2) = dict_keys (TOOL_DEFINITIONS s2)).
Proof.
  intros (Hnd & Hkeys & Hnames) E.
  destruct (discover_and_register_tools_outcome s)
    as (s2' & new & E' & D & X & I & _ & _ & _ & R).
  rewrite E in E'. injection E' as <-.
  assert (dict_keys (registry_of (TOOL_EXECUTORS s) (TOOL_DEFINITIONS s) []) =
          dict_keys (TOOL_DEFINITIONS s)) as Hk.
  { rewrite registry_of_keys; [reflexivity | exact Hnd |].
    intros k Hk. apply dict_mem_keys. now rewrite <- Hkeys. }
  destruct (fst (initialize_all_tools s)) as [[]|e].
  - split; [|split].
    + intros k tool H. rewrite R in H. apply registry_of_origin in H.
      destruct H as [H|(Hn & Hin & He)]; [discriminate|].
      rewrite D, X. repeat split; auto.
      * rewrite Forall_forall in Hnames. exact (Hnames _ Hin).
      * now apply In_dict_get.
    + now rewrite R, Hk.
    + intros _. now rewrite R, D.
  - split; [|split].
    + intros k tool H. rewrite R in H. discriminate H.
    + rewrite R. constructor.
    + discriminate.
Qed.

End RegistryProperties.

(** ** The dispatcher *)

Lemma outcome_truthy (v : value) : is_invocation_outcome v = true -> truthy v = true.
Proof.
  unfold is_invocation_outcome, is_success_outcome, is_failure_outcome.
  destruct v as [| | | | |l|d]; simpl; try discriminate.
  destruct d; simpl; [discriminate | reflexivity].
Qed.

Section DispatcherProperties.

Context {env : Environment}.

Lemma call_tool_unknown (tool_id : string) (inputs : value) (s : state) :
  dict_get tool_id (_tool_registry s) = None ->
  call_tool tool_id inputs s =
  (Ok (failure (fstr ["Tool '"; tool_id; "' not found or not executable."])), s).
Proof.
  intros H. unfold call_tool, bind, gets. now rewrite H.
Qed.

Lemma call_tool_returns (tool_id : string) (inputs : value) (s : state) tool v w' :
  dict_get tool_id (_tool_registry s) = Some tool ->
  exec_behaviour (execute_func tool) inputs (world s) = (Ok v, w') ->
  call_tool tool_id inputs s =
  (Ok v, set_world w' (emit (EvExec (execute_func tool) inputs) s)).
Proof.
  intros H E. unfold call_tool, bind, gets. rewrite H.
  unfold try_except, call_executor. simpl. now rewrite E.
Qed.

Lemma call_tool_catches (tool_id : string) (inputs : value) (s : state) tool e w' :
  dict_get tool_id (_tool_registry s) = Some tool ->
  exec_behaviour (execute_func tool) inputs (world s) = (Raise e, w') ->
  call_tool tool_id inputs s =
  (Ok (failure (fstr ["Internal error during '"; tool_id; "' execution: "; exn_str e])),
   set_world w' (emit (EvExec (execute_func tool) inputs) s)).
Proof.
  intros H E. unfold call_tool, bind, gets. rewrite H.
  unfold try_except, call_executor. simpl. now rewrite E.
Qed.

(** [call_tool] returns, whatever the tool does. *)
Lemma call_tool_total (tool_id : string) (inputs : value) (s : state) :
  exists payload s', call_tool tool_id inputs s = (Ok payload, s').
Proof.
  destruct (dict_get tool_id (_tool_registry s)) as [tool|] eqn:H.
  - destruct (exec_behaviour (execute_func tool) inputs (world s)) as [[v|e] w'] eqn:E.
    + erewrite call_tool_returns by eassumption. eauto.
    + erewrite call_tool_catches by eassumption. eauto.
  - rewrite call_tool_unknown by assumption. eauto.
Qed.

(** The handler on [mcp_call_tool], check by check. *)
Lemma handler_checks (request : JsonRpcRequest) (s : state) :
  req_method request = "mcp_call_tool" ->
  mcp_rpc_handler request s =
  if params_check_fails request then
    (Ok (response_error (-32602) msg_invalid_params (req_id request)), s)
  else if tool_id_check_fails request then
    (Ok (response_error (-32602) msg_invalid_tool_id (req_id request)), s)
  else if inputs_check_fails request then
    (Ok (response_error (-32602) msg_invalid_inputs (req_id request)), s)
  else
    let tool_id := str_value (value_get (req_params request) "tool_id") in
    match call_tool tool_id (value_get (req_params request) "inputs") s with
    | (Ok payload, s') => (Ok (respond request tool_id payload), s')
    | (Raise e, s') => (Raise e, s')
    end.
Proof.
  intros Hm. unfold mcp_rpc_handler. rewrite Hm. simpl.
  unfold params_check_fails, tool_id_check_fails, inputs_check_fails.
  destruct (negb (truthy (req_params request)) || negb (isinstance_dict (req_params request)));
    [reflexivity|].
  destruct (negb (truthy (value_get (req_params request) "tool_id"))
            || negb (isinstance_str (value_get (req_params request) "tool_id")));
    [reflexivity|].
  destruct (is_None (value_get (req_params request) "inputs")
            || negb (isinstance_dict (value_get (req_params request) "inputs")));
    [reflexivity|].
  unfold bind, respond.
  destruct (call_tool _ _ s) as [[payload|e] s']; [|reflexivity].
  destruct (truthy payload); reflexivity.
Qed.

(** A request that passes the envelope checks passes the three [if]s. *)
Lemma passes_envelope_checks request tool_id inputs :
  passes_envelope request tool_id inputs ->
  params_check_fails request = false /\
  tool_id_check_fails request = false /\
  inputs_check_fails request = false.
Proof.
  intros (Hm & Hd & Ht & Hne & Hi).
  unfold params_check_fails, tool_id_check_fails, inputs_check_fails.
  rewrite Ht, Hi, Hd. simpl.
  assert (String.eqb tool_id EmptyString = false) as -> by now apply String.eqb_neq.
  repeat split; try reflexivity.
  destruct (req_params request) as [| | | | | |d]; try discriminate.
  destruct d; [discriminate | reflexivity].
Qed.

Lemma handler_after_envelope request tool_id inputs (s : state) :
  passes_envelope request tool_id inputs ->
  mcp_rpc_handler request s =
  match call_tool tool_id (VDict inputs) s with
  | (Ok payload, s') => (Ok (respond request tool_id payload), s')
  | (Raise e, s') => (Raise e, s')
  end.
Proof.
  intros H. destruct (passes_envelope_checks H) as (E1 & E2 & E3).
  destruct H as (Hm & Hd & Ht & Hne & Hi).
  rewrite handler_checks by assumption. rewrite E1, E2, E3, Ht, Hi. reflexivity.
Qed.

End DispatcherProperties.

(** * The claims *)

Section DispatcherClaims.

Context {env : Environment}.

(** A request for a tool that the registry does not have is answered with a
    result, the failure record that [call_tool] returns for it, and the
    state is as before: the branch of the handler that builds error -32601
    is not taken. *)
Lemma unknown_tool_reported_in_result request tool_id inputs (s : state) :
  passes_envelope request tool_id inputs ->
  dict_get tool_id (_tool_registry s) = None ->
  mcp_rpc_handler request s =
  (Ok (response_result
         (failure (fstr ["Tool '"; tool_id; "' not found or not executable."]))
         (req_id request)), s).
Proof.
  intros Henv Hnone.
  rewrite (handler_after_envelope s Henv), call_tool_unknown by assumption.
  reflexivity.
Qed.

(** C2. When a registered tool's [execute] returns an Invocation Outcome, of
    success or of failure status, the handler's response has that very
    record as [result], no [error], and the request's [id]; the executor ran
    once, on the request's inputs. *)
Theorem outcome_becomes_result request tool_id inputs tool outcome w' (s : state) :
  passes_envelope request tool_id inputs ->
  dict_get tool_id (_tool_registry s) = Some tool ->
  exec_behaviour (execute_func tool) (VDict inputs) (world s) = (Ok outcome, w') ->
  is_success_outcome outcome = true \/ is_failure_outcome outcome = true ->
  exists response s',
    mcp_rpc_handler request s = (Ok response, s') /\
    rsp_result response = outcome /\
    rsp_error response = VNone /\
    rsp_id response = req_id request /\
    trace s' = trace s ++ [EvExec (execute_func tool) (VDict inputs)].
Proof.
  intros Henv Htool Hexec Hshape.
  assert (truthy outcome = true) as Htruthy.
  { apply outcome_truthy. unfold is_invocation_outcome.
    destruct Hshape as [-> | ->]; [reflexivity | apply orb_true_r]. }
  rewrite (handler_after_envelope s Henv).
  rewrite (call_tool_returns _ _ _ Htool Hexec).
  unfold respond. rewrite Htruthy.
  eexists _, _. split; [reflexivity|]. simpl. auto.
Qed.

(** C4. When a registered tool's [execute] raises, [call_tool] returns (it
    does not raise) the failure record with the internal-error message, and
    the handler's response carries that record as [result] with no [error]. *)
Theorem executor_exception_becomes_failure request tool_id inputs tool e w' (s : state) :
  passes_envelope request tool_id inputs ->
  dict_get tool_id (_tool_registry s) = Some tool ->
  exec_behaviour (execute_func tool) (VDict inputs) (world s) = (Raise e, w') ->
  exists response s',
    call_tool tool_id (VDict inputs) s = (Ok (rsp_result response), s') /\
    mcp_rpc_handler request s = (Ok response, s') /\
    rsp_result response =
      failure (fstr ["Internal error during '"; tool_id; "' execution: "; exn_str e]) /\
    is_failure_outcome (rsp_result response) = true /\
    rsp_error response = VNone /\
    rsp_id response = req_id request.
Proof.
  intros Henv Htool Hexec.
  rewrite (handler_after_envelope s Henv).
  rewrite (call_tool_catches _ _ _ Htool Hexec).
  eexists _, _. split; [|split; [reflexivity|]]; simpl; auto.
Qed.


(** C5. On [mcp_call_tool], when [params] is missing or not an object, or
    [tool_id] is missing or not a string, or [inputs] is missing, null or not
    an object, the handler answers with error -32602 and the state is as
    before (no executor ran). The checks run in the order params, tool_id,
    inputs; each has its own message; and with the first two passed, [{}] as
    [inputs] is not rejected. *)
Theorem invalid_envelope_is_rejected (request : JsonRpcRequest) (s : state) :
  req_method request = "mcp_call_tool" ->
  (isinstance_dict (req_params request) = false \/
   isinstance_str (value_get (req_params request) "tool_id") = false \/
   isinstance_dict (value_get (req_params request) "inputs") = false ->
   exists message,
     mcp_rpc_handler request s =
     (Ok (response_error (-32602) message (req_id request)), s)) /\
  (params_check_fails request = true ->
   mcp_rpc_handler request s =
   (Ok (response_error (-32602) msg_invalid_params (req_id request)), s)) /\
  (params_check_fails request = false ->
   tool_id_check_fails request = true ->
   mcp_rpc_handler request s =
   (Ok (response_error (-32602) msg_invalid_tool_id (req_id request)), s)) /\
  (params_check_fails request = false ->
   tool_id_check_fails request = false ->
   inputs_check_fails request = true ->
   mcp_rpc_handler request s =
   (Ok (response_error (-32602) msg_invalid_inputs (req_id request)), s)) /\
  (msg_invalid_params <> msg_invalid_tool_id /\
   msg_invalid_params <> msg_invalid_inputs /\
   msg_invalid_tool_id <> msg_invalid_inputs) /\
  (params_check_fails request = false ->
   tool_id_check_fails request = false ->
   value_get (req_params request) "inputs" = VDict [] ->
   exists response s',
     mcp_rpc_handler request s = (Ok response, s') /\
     error_code response <> VInt (-32602)).
Proof.
  intros Hm. rewrite (handler_checks request s Hm).
  split; [|split; [|split; [|split; [|split]]]].
  - intros H.
    destruct (params_check_fails request) eqn:E1; [eauto|].
    destruct (tool_id_check_fails request) eqn:E2; [eauto|].
    destruct (inputs_check_fails request) eqn:E3; [eauto|].
    exfalso.
    unfold params_check_fails in E1. unfold tool_id_check_fails in E2.
    unfold inputs_check_fails in E3.
    apply orb_false_iff in E1, E2, E3.
    destruct E1 as [_ E1], E2 as [_ E2], E3 as [_ E3].
    apply negb_false_iff in E1, E2, E3.
    destruct H as [H|[H|H]]; congruence.
  - now intros ->.
  - now intros -> ->.
  - now intros -> -> ->.
  - repeat split; discriminate.
  - intros -> -> Hi.
    unfold inputs_check_fails. rewrite Hi. simpl.
    destruct (call_tool_total (str_value (value_get (req_params request) "tool_id"))
                (VDict []) s) as (payload & s' & E).
    rewrite E. eexists _, s'. split; [reflexivity|].
    unfold respond. destruct (truthy payload); discriminate.
Qed.

End DispatcherClaims.

Section RegistrationClaims.

Context {env : Environment}.



(** C6. A call of [register_tool] whose definition carries another name than
    the registration key raises [ValueError] and leaves the state, with the
    three tables, as it was; and a name that was not registered before is
    not among the descriptors [list_tools] has to show after the next
    startup. *)
Theorem mismatched_registration_is_rejected
    tool_name_ getter executor initializer shared (s : state) :
  tool_name (getter tt) <> tool_name_ ->
  exists message s',
    register_tool tool_name_ getter executor initializer shared s =
      (Raise (ValueError message), s') /\
    s' = s /\
    TOOL_DEFINITIONS s' = TOOL_DEFINITIONS s /\
    TOOL_EXECUTORS s' = TOOL_EXECUTORS s /\
    TOOL_INITIALIZERS s' = TOOL_INITIALIZERS s /\
    (tables_consistent s ->
     dict_get tool_name_ (TOOL_DEFINITIONS s) = None ->
     forall s2 tools s3,
       discover_and_register_tools s' = (Ok tt, s2) ->
       get_all_tool_definitions s2 = (Ok tools, s3) ->
       forall d, In d tools -> tool_name d <> tool_name_).
Proof.
  intros Hne. eexists _, s.
  split; [now apply register_tool_rejects|].
  repeat (split; [reflexivity|]).
  intros Hcons Hfresh s2 tools s3 Hdisc Hlist d Hd.
  destruct (discover_makes_registry_consistent Hcons Hdisc) as (Hreg & Hnodup & _).
  destruct (discover_and_register_tools_outcome s) as (s2' & new & E & D & _).
  rewrite Hdisc in E. injection E as <-.
  unfold get_all_tool_definitions, gets in Hlist. injection Hlist as <- <-.
  apply in_map_iff in Hd. destruct Hd as (tool & <- & Htool).
  unfold dict_values in Htool. apply in_map_iff in Htool.
  destruct Htool as ([k tool'] & Hsnd & Hin). simpl in Hsnd. subst tool'.
  apply In_dict_get in Hin.
  - destruct (Hreg _ _ Hin) as (_ & Hname & Hdef & _).
    rewrite Hname. intros ->. rewrite D in Hdef. congruence.
  - exact Hnodup.
Qed.

(** C10. After a pass of successful [register_tool] calls from the empty
    tables, the definitions and the executors have the same keys and every
    definition is filed under its own [tool_name]; and whatever the
    initializers do at startup, every tool that the startup leaves in the
    dispatcher's registry is filed under its own name and has, under that
    name, its definition in the definitions table and its executor in the
    executors table. When the initializers' pass of the startup returns,
    the registry has the keys of the two tables. *)
Theorem registered_tables_agree (rs : list registration) (w : World) (s : state) :
  register_all rs (initial_state w) = (Ok tt, s) ->
  dict_keys (TOOL_DEFINITIONS s) = dict_keys (TOOL_EXECUTORS s) /\
  (forall k d, dict_get k (TOOL_DEFINITIONS s) = Some d -> tool_name d = k) /\
  exists s2,
    discover_and_register_tools s = (Ok tt, s2) /\
    registry_consistent s2 /\
    (fst (initialize_all_tools s) = Ok tt ->
     dict_keys (_tool_registry s2) = dict_keys (TOOL_DEFINITIONS s)).
Proof.
  intros H.
  assert (tables_consistent s) as Hcons.
  { pose proof (register_all_preserves rs (initial_state_consistent w)) as P.
    now rewrite H in P. }
  split; [apply Hcons|]. split.
  - intros k d Hk. apply dict_get_In in Hk.
    destruct Hcons as (_ & _ & Hnames). rewrite Forall_forall in Hnames.
    exact (Hnames _ Hk).
  - destruct (discover_and_register_tools_outcome s) as (s2 & new & E & _).
    destruct (discover_makes_registry_consistent Hcons E) as (Hreg & _ & Hkeys).
    destruct (discover_and_register_tools_outcome s) as (s2' & new' & E' & D & _).
    rewrite E in E'. injection E' as <-.
    exists s2. split; [exact E|]. split; [exact Hreg|].
    intros Hi. rewrite <- D. exact (Hkeys Hi).
Qed.

Lemma register_all_app (a b : list registration) : forall (s s1 : state),
  register_all (a ++ b) s = (Ok tt, s1) ->
  exists sm, register_all a s = (Ok tt, sm) /\ register_all b sm = (Ok tt, s1).
Proof.
  induction a as [|r a IH]; intros s s1 H; simpl in *.
  - exists s. now split.
  - unfold bind in *. destruct (register r s) as [[[]|e] s0]; [|discriminate].
    now apply IH.
Qed.

(** A shared registration of an initializer that is already listed leaves
    the list as it is. *)
Lemma register_shared_again (r : registration) (f : fn) (s s1 : state) :
  reg_initializer r = Some f -> reg_is_initializer_shared r = true ->
  In f (TOOL_INITIALIZERS s) ->
  register r s = (Ok tt, s1) ->
  TOOL_INITIALIZERS s1 = TOOL_INITIALIZERS s.
Proof.
  unfold register. intros Hf Hshared Hin H.
  destruct (string_dec (tool_name (reg_definition_getter r tt)) (reg_tool_name r)) as [E|E].
  - rewrite register_tool_accepts in H by assumption. injection H as <-.
    rewrite Hf, Hshared. apply fn_in_In in Hin. rewrite Hin.
    now destruct s.
  - rewrite register_tool_rejects in H by assumption. discriminate.
Qed.

End RegistrationClaims.

(** ** What the tools return *)

Section Returns.

Context {S A : Type} (P : A -> Prop).

Lemma returns_ret (a : A) : P a -> returns_only P (ret (S := S) a).
Proof. intros H s a' s' [= <- _]. exact H. Qed.

Lemma returns_raise (e : exn) : returns_only P (raise (S := S) e).
Proof. intros s a s' H. discriminate H. Qed.

Lemma returns_bind {B} (m : M S B) (k : B -> M S A) :
  (forall b, returns_only P (k b)) -> returns_only P (bind m k).
Proof.
  intros H s a s' E. unfold bind in E.
  destruct (m s) as [[b|e] s0]; [exact (H b _ _ _ E) | discriminate].
Qed.

Lemma returns_try (m : M S A) (h : exn -> M S A) :
  returns_only P m -> (forall e, returns_only P (h e)) ->
  returns_only P (try_except m h).
Proof.
  intros Hm Hh s a s' E. unfold try_except in E.
  destruct (m s) as [[a0|e] s0] eqn:E0.
  - injection E as <- <-. exact (Hm _ _ _ E0).
  - exact (Hh e _ _ _ E).
Qed.

End Returns.

(** One step through the text of an executor. *)
Ltac returns_step :=
  lazymatch goal with
  | |- returns_only _ (ret _) => apply returns_ret
  | |- returns_only _ (raise _) => apply returns_raise
  | |- returns_only _ (bind _ _) => apply returns_bind; intros
  | |- returns_only _ (try_except _ _) => apply returns_try; [|intros]
  | |- returns_only _ (match ?x with _ => _ end) => destruct x
  | |- returns_only _ (let _ := _ in _) => cbv zeta
  end.

Section ToolClaims.

Context {ext : External}.

Lemma except_api_well_formed (op : string) (e : exn) :
  returns_only well_formed (except_api op e).
Proof. unfold except_api. repeat returns_step; reflexivity. Qed.

Lemma execute_tavily_search_well_formed (inputs : value) :
  returns_only well_formed (execute_tavily_search inputs).
Proof. unfold execute_tavily_search. repeat returns_step; reflexivity. Qed.

Lemma execute_google_sheets_append_well_formed (inputs : value) :
  returns_only well_formed (execute_google_sheets_append inputs).
Proof.
  unfold execute_google_sheets_append.
  repeat returns_step; try reflexivity; apply except_api_well_formed.
Qed.

Lemma execute_google_sheets_update_well_formed (inputs : value) :
  returns_only well_formed (execute_google_sheets_update inputs).
Proof.
  unfold execute_google_sheets_update.
  repeat returns_step; try reflexivity; apply except_api_well_formed.
Qed.

(** The read executor has one more shape: the record without [output]. *)
Lemma execute_google_sheets_read_shapes (inputs : value) :
  returns_only (fun v => well_formed v \/ v = empty_spreadsheet_data)
    (execute_google_sheets_read inputs).
Proof.
  unfold execute_google_sheets_read.
  repeat returns_step; try (left; reflexivity); try (right; reflexivity).
  unfold except_api. repeat returns_step; left; reflexivity.
Qed.

End ToolClaims.

(** ** The claims on concrete runs *)

(** A run whose result is known ends in the state it ends in. *)
Lemma returned_with_state {S A} (m : M S A) (s : S) (a : A) :
  fst (m s) = Ok a -> m s = (Ok a, snd (m s)).
Proof. destruct (m s) as [r s']. simpl. now intros ->. Defined.

(** The pass of [registrations] is what the module runs when imported. *)
Lemma available_tools_is_pass {ext : External} (s : @state repository) :
  available_tools s = register_all registrations s.
Proof.
  unfold available_tools, registrations. simpl. unfold register, bind. simpl.
  repeat match goal with
         | |- context [register_tool ?n ?g ?x ?i ?b ?st] =>
             destruct (register_tool n g x i b st) as [[[]|?] ?]; try reflexivity
         end.
Qed.

(** C1. The request of the end-to-end scenario for an unknown tool,
    [{"jsonrpc": "2.0", "method": "mcp_call_tool",
      "params": {"tool_id": "nonexistent", "inputs": {}}, "id": "a"}],
    sent to the started server: no tool is called, but the response is a
    result (a failure record), and its [error] is [None], not an object with
    code -32601. *)
Theorem unknown_tool_is_answered_with_result :
  let request :=
    {| req_jsonrpc := "2.0"; req_method := "mcp_call_tool";
       req_params := VDict [("tool_id", VStr "nonexistent"); ("inputs", VDict [])];
       req_id := VStr "a" |} in
  let s := Scripted.started [] in
  dict_get "nonexistent" (_tool_registry s) = None /\
  passes_envelope request "nonexistent" [] /\
  mcp_rpc_handler request s =
    (Ok {| rsp_jsonrpc := "2.0";
           rsp_result :=
             VDict [("status", VStr "failure"); ("output", VNone);
                    ("error", VStr "Tool 'nonexistent' not found or not executable.")];
           rsp_error := VNone;
           rsp_id := VStr "a" |}, s) /\
  error_code (response_result
                (failure "Tool 'nonexistent' not found or not executable.") (VStr "a"))
    <> VInt (-32601).
Proof.
  intros request s.
  assert (dict_get "nonexistent" (_tool_registry s) = None) as Hnone by reflexivity.
  assert (passes_envelope request "nonexistent" []) as Henv.
  { repeat split; try reflexivity. discriminate. }
  split; [exact Hnone|]. split; [exact Henv|]. split.
  - exact (unknown_tool_reported_in_result s Henv Hnone).
  - discriminate.
Qed.

(** C3. [execute_google_sheets_read] on well-formed inputs, with the client
    initialised on first use and the service answering for a range that
    holds no values: the returned record has the keys [status] and [error]
    only, so it is neither of the two shapes. *)
Theorem read_of_empty_range_lacks_output :
  let inputs := VDict [("spreadsheet_id", VStr "abc"); ("range", VStr "Sheet1!A1:B2")] in
  let answer := VDict [("range", VStr "Sheet1!A1:B2"); ("majorDimension", VStr "ROWS")] in
  let w := mkToolWorld (ext := Scripted.backend) None None [Ok answer] in
  fst (execute_google_sheets_read inputs w) = Ok empty_spreadsheet_data /\
  has_key "status" empty_spreadsheet_data = true /\
  has_key "error" empty_spreadsheet_data = true /\
  has_key "output" empty_spreadsheet_data = false /\
  is_invocation_outcome empty_spreadsheet_data = false.
Proof.
  intros inputs answer w. repeat split.
Qed.

(** The same through the server: the record reaches the caller as [result]. *)
Example read_of_empty_range_through_server :
  fst (mcp_rpc_handler
         (Sample.call_tool_id "google_sheets_read"
            [("spreadsheet_id", VStr "abc"); ("range", VStr "Sheet1!A1:B2")])
         (Scripted.started [Ok (VDict [("range", VStr "Sheet1!A1:B2")])]))
  = Ok (response_result empty_spreadsheet_data (VInt 7)).
Proof. vm_compute. reflexivity. Qed.

(** The three other executors, and the other paths of this one, on a run. *)
Example tavily_search_through_server :
  fst (mcp_rpc_handler
         (Sample.call_tool_id "tavily_search" [("query", VStr "rocq"); ("max_results", VInt 50)])
         (Scripted.started [Ok (VDict [("query", VStr "rocq"); ("results", VList [])])]))
  = Ok (response_result
          (success (VDict [("query", VStr "rocq"); ("results", VList [])])) (VInt 7)).
Proof. vm_compute. reflexivity. Qed.

Example read_of_blank_range_through_server :
  exists message,
    fst (mcp_rpc_handler
           (Sample.call_tool_id "google_sheets_read"
              [("spreadsheet_id", VStr "abc"); ("range", VStr "S!A1")])
           (Scripted.started [Ok (VDict [("values", VList [VList [VStr " "; VNone]])])]))
    = Ok (response_result (failure message) (VInt 7)).
Proof. eexists. vm_compute. reflexivity. Qed.

Lemma outcome_becomes_result_witness :
  (exists response s',
     @mcp_rpc_handler Sample.environment
       (Sample.call_tool_id "echo" [("q", VStr "x")]) Sample.serving = (Ok response, s') /\
     rsp_result response = success (VDict [("q", VStr "x")]) /\
     rsp_error response = VNone /\
     rsp_id response = VInt 7 /\
     trace s' = [EvExec Sample.echo (VDict [("q", VStr "x")])]) /\
  (exists response s',
     @mcp_rpc_handler Sample.environment
       (Sample.call_tool_id "read" []) Sample.serving = (Ok response, s') /\
     rsp_result response = failure "the spreadsheet range was empty" /\
     rsp_error response = VNone /\
     rsp_id response = VInt 7 /\
     trace s' = [EvExec Sample.empty_range (VDict [])]).
Proof.
  split.
  - apply (@outcome_becomes_result Sample.environment
             (Sample.call_tool_id "echo" [("q", VStr "x")]) "echo" [("q", VStr "x")]
             (Sample.tool "echo" Sample.echo) (success (VDict [("q", VStr "x")])) tt
             Sample.serving).
    + repeat split; try reflexivity. discriminate.
    + reflexivity.
    + reflexivity.
    + left. reflexivity.
  - apply (@outcome_becomes_result Sample.environment
             (Sample.call_tool_id "read" []) "read" []
             (Sample.tool "read" Sample.empty_range)
             (failure "the spreadsheet range was empty") tt Sample.serving).
    + repeat split; try reflexivity. discriminate.
    + reflexivity.
    + reflexivity.
    + right. reflexivity.
Defined.

Lemma executor_exception_becomes_failure_witness :
  exists response s',
    @call_tool Sample.environment "crash" (VDict []) Sample.serving
      = (Ok (rsp_result response), s') /\
    @mcp_rpc_handler Sample.environment (Sample.call_tool_id "crash" []) Sample.serving
      = (Ok response, s') /\
    rsp_result response =
      failure "Internal error during 'crash' execution: division by zero" /\
    is_failure_outcome (rsp_result response) = true /\
    rsp_error response = VNone /\
    rsp_id response = VInt 7.
Proof.
  apply (@executor_exception_becomes_failure Sample.environment
           (Sample.call_tool_id "crash" []) "crash" []
           (Sample.tool "crash" Sample.crash) (Exception "division by zero") tt
           Sample.serving).
  - repeat split; try reflexivity. discriminate.
  - reflexivity.
  - reflexivity.
Defined.


Lemma invalid_envelope_is_rejected_witness :
  @mcp_rpc_handler Sample.environment (Sample.call (VList [VInt 1])) Sample.serving
    = (Ok (response_error (-32602) msg_invalid_params (VInt 7)), Sample.serving) /\
  @mcp_rpc_handler Sample.environment
      (Sample.call (VDict [("inputs", VDict [])])) Sample.serving
    = (Ok (response_error (-32602) msg_invalid_tool_id (VInt 7)), Sample.serving) /\
  @mcp_rpc_handler Sample.environment
      (Sample.call (VDict [("tool_id", VStr "echo"); ("inputs", VNone)])) Sample.serving
    = (Ok (response_error (-32602) msg_invalid_inputs (VInt 7)), Sample.serving).
Proof.
  split; [|split].
  - exact (proj1 (proj2 (@invalid_envelope_is_rejected Sample.environment
             (Sample.call (VList [VInt 1])) Sample.serving eq_refl)) eq_refl).
  - exact (proj1 (proj2 (proj2 (@invalid_envelope_is_rejected Sample.environment
             (Sample.call (VDict [("inputs", VDict [])])) Sample.serving eq_refl)))
             eq_refl eq_refl).
  - exact (proj1 (proj2 (proj2 (proj2 (@invalid_envelope_is_rejected Sample.environment
             (Sample.call (VDict [("tool_id", VStr "echo"); ("inputs", VNone)]))
             Sample.serving eq_refl))))
             eq_refl eq_refl eq_refl).
Defined.

Lemma mismatched_registration_is_rejected_witness :
  exists message,
    @register_tool Sample.environment "search" (Sample.describe "lookup")
      Sample.echo (Some Sample.connect) false Sample.serving
    = (Raise (ValueError message), Sample.serving).
Proof.
  destruct (@mismatched_registration_is_rejected Sample.environment
              "search" (Sample.describe "lookup") Sample.echo (Some Sample.connect) false
              Sample.serving) as (message & s' & E & Hs & _).
  - discriminate.
  - exists message. subst s'. exact E.
Defined.

Lemma registered_tables_agree_witness :
  dict_keys (TOOL_DEFINITIONS Scripted.imported) = dict_keys (TOOL_EXECUTORS Scripted.imported) /\
  (forall k d, dict_get k (TOOL_DEFINITIONS Scripted.imported) = Some d -> tool_name d = k) /\
  exists s2,
    discover_and_register_tools Scripted.imported = (Ok tt, s2) /\
    registry_consistent s2 /\
    (fst (initialize_all_tools Scripted.imported) = Ok tt ->
     dict_keys (_tool_registry s2) = dict_keys (TOOL_DEFINITIONS Scripted.imported)).
Proof.
  apply (@registered_tables_agree (@repository Scripted.backend) registrations
           (mkToolWorld (ext := Scripted.backend) None None [])).
  exact (@returned_with_state _ _ (register_all registrations) Scripted.fresh tt eq_refl).
Defined.

(** C7. A pass registers tool [a] with an initializer that is a
    [functools.partial] (it has no [__name__]) and raises, then tools [b]
    and [c] with [is_initializer_shared=True] and the same initializer
    [connect]. The second shared registration does not list [connect]
    again, but [initialize_all_tools] calls the partial, fails with
    [AttributeError] in its own handler and never calls [connect]. *)
Theorem shared_initializer_is_never_called_after_abort :
  let s1 := snd (@register_all Sample.environment Sample.pass (@initial_state Sample.environment tt)) in
  @register_all Sample.environment Sample.pass (@initial_state Sample.environment tt) = (Ok tt, s1) /\
  reg_initializer Sample.tool_b = Some Sample.connect /\
  reg_is_initializer_shared Sample.tool_b = true /\
  reg_initializer Sample.tool_c = Some Sample.connect /\
  reg_is_initializer_shared Sample.tool_c = true /\
  TOOL_INITIALIZERS s1 = [Sample.misconfigured_partial; Sample.connect] /\
  fst (initialize_all_tools s1) =
    Raise (AttributeError "object has no attribute '__name__'") /\
  trace (snd (initialize_all_tools s1)) = [EvInit Sample.misconfigured_partial] /\
  count_occ Nat.eq_dec (inits_of (trace (snd (initialize_all_tools s1)))) Sample.connect
    = 0%nat.
Proof.
  intros s1. repeat split.
Qed.

(** C8. With the initializers [misconfigured_partial; connect] listed, the
    first one raises; the handler of [initialize_all_tools] then raises
    [AttributeError] at [initializer.__name__], which leaves
    [initialize_all_tools]: nothing is printed and [connect] is not called. *)
Theorem nameless_failing_initializer_aborts_pass :
  fst (@initialize_all_tools Sample.environment Sample.registered_partial) =
    Raise (AttributeError "object has no attribute '__name__'") /\
  trace (snd (@initialize_all_tools Sample.environment Sample.registered_partial)) =
    [EvInit Sample.misconfigured_partial] /\
  ~ In Sample.connect
      (inits_of (trace (snd (@initialize_all_tools Sample.environment
                               Sample.registered_partial)))) /\
  (* the startup swallows the exception and leaves the registry empty *)
  _tool_registry (snd (@discover_and_register_tools Sample.environment
                         Sample.registered_partial)) = [].
Proof.
  repeat split. simpl. intros [H|[]]. discriminate H.
Qed.

(** The pass of the repository lists two initializers for four tools, and
    the startup calls each of the two once. *)
Example repository_initializers :
  TOOL_INITIALIZERS Scripted.imported =
    [Fn.initialize_tavily_search_tool; Fn.initialize_google_sheets_tool] /\
  inits_of (trace (Scripted.started [])) =
    [Fn.initialize_tavily_search_tool; Fn.initialize_google_sheets_tool].
Proof. split; vm_compute; reflexivity. Qed.

(** An initializer that raises, listed twice, with another one between: it
    is called once, its failure is printed, and the other one is called. *)
Example failing_initializer_run :
  @initialize_all_tools Sample.environment Sample.registered =
  (Ok tt,
   mkState (env := Sample.environment) [] []
     [Sample.misconfigured; Sample.connect; Sample.misconfigured] [] tt
     [EvInit Sample.misconfigured;
      EvPrint "Error during tool initialization: misconfigured failed with missing credential";
      EvInit Sample.connect]).
Proof. reflexivity. Qed.

(** * Further properties of the code *)

(** ** The handler as a whole *)

Lemma dict_set_fresh {V} (k : string) (v : V) (d : dict V) :
  dict_mem k d = false -> dict_set k v d = d ++ [(k, v)].
Proof.
  unfold dict_mem. induction d as [|[k' v'] d IH]; simpl; [reflexivity|].
  destruct (String.eqb k k'); [discriminate|].
  intros H. now rewrite IH.
Qed.

Section HandlerProperties.

Context {env : Environment}.

(** The definitions of the built registry are those of the definitions
    table, in its order. *)
Lemma registry_of_definitions execs (items : list (string * ToolDefinition)) : forall r,
  NoDup (dict_keys r ++ dict_keys items) ->
  (forall k, In k (dict_keys items) -> dict_mem k execs = true) ->
  map definition (dict_values (registry_of execs items r)) =
  map definition (dict_values r) ++ dict_values items.
Proof.
  induction items as [|[k0 d0] items IH]; intros r Hnd Hex; simpl in *.
  - now rewrite app_nil_r.
  - assert (dict_mem k0 execs = true) as Hk0 by (apply Hex; now left).
    unfold dict_mem in Hk0. destruct (dict_get k0 execs) as [e|]; [|discriminate].
    assert (dict_mem k0 r = false) as Hfresh.
    { apply not_true_is_false. rewrite dict_mem_keys. intros Hin.
      apply NoDup_remove_2 in Hnd. apply Hnd, in_or_app. now left. }
    rewrite dict_set_fresh by assumption.
    rewrite IH.
    + unfold dict_values. rewrite !map_app. simpl. now rewrite <- app_assoc.
    + unfold dict_keys. rewrite map_app. simpl. rewrite <- app_assoc. exact Hnd.
    + intros k Hk. apply Hex. now right.
Qed.

(** X1. Every request gets a response, never an exception: it is a JSON-RPC 2.0
    response with the id of the request and either a result and no error, or
    no result and an error object with code -32601 or -32602. *)
Theorem handler_always_answers (request : JsonRpcRequest) (s : state) :
  exists response s',
    mcp_rpc_handler request s = (Ok response, s') /\
    rsp_jsonrpc response = "2.0" /\
    rsp_id response = req_id request /\
    ((rsp_result response <> VNone /\ rsp_error response = VNone) \/
     (rsp_result response = VNone /\
      exists code message,
        rsp_error response = VDict [("code", VInt code); ("message", VStr message)] /\
        (code = -32601 \/ code = -32602))).
Proof.
  destruct (String.eqb (req_method request) "mcp_list_tools") eqn:Elist.
  - unfold mcp_rpc_handler. rewrite Elist.
    unfold bind, get_all_tool_definitions, gets, ret.
    eexists _, s. split; [reflexivity|]. simpl.
    repeat split. left. split; [discriminate | reflexivity].
  - destruct (String.eqb (req_method request) "mcp_call_tool") eqn:Ecall.
    + apply String.eqb_eq in Ecall. rewrite (handler_checks request s Ecall).
      destruct (params_check_fails request);
        [eexists _, s; split; [reflexivity|]; simpl; repeat split; right; eauto 10|].
      destruct (tool_id_check_fails request);
        [eexists _, s; split; [reflexivity|]; simpl; repeat split; right; eauto 10|].
      destruct (inputs_check_fails request);
        [eexists _, s; split; [reflexivity|]; simpl; repeat split; right; eauto 10|].
      cbv zeta.
      destruct (call_tool_total (str_value (value_get (req_params request) "tool_id"))
                  (value_get (req_params request) "inputs") s) as (payload & s' & E).
      rewrite E. eexists _, s'. split; [reflexivity|].
      unfold respond. destruct (truthy payload) eqn:T; simpl; repeat split.
      * left. split; [|reflexivity]. intros ->. discriminate.
      * right. eauto 10.
    + unfold mcp_rpc_handler. rewrite Elist, Ecall.
      eexists _, s. split; [reflexivity|]. simpl. repeat split. right. eauto 10.
Qed.

(** X2. A method other than the two the server knows (the comparison is exact,
    so another spelling is another method) is answered with error -32601
    naming the method; nothing is read, changed or called. *)
Theorem unknown_method_is_rejected (request : JsonRpcRequest) (s : state) :
  req_method request <> "mcp_list_tools" ->
  req_method request <> "mcp_call_tool" ->
  mcp_rpc_handler request s =
  (Ok (response_error (-32601)
         (fstr ["Method '"; req_method request; "' not found."]) (req_id request)), s).
Proof.
  intros H1 H2. unfold mcp_rpc_handler.
  apply String.eqb_neq in H1, H2. now rewrite H1, H2.
Qed.

(** X3. After a startup on consistent tables, [mcp_list_tools] leaves the
    state as it is and pays no attention to the request's [params]. When the
    initializers' pass of the startup has returned, it answers with the
    dumps of the registered definitions, one per registered name, in the
    order of the definitions table; when the pass has raised, it answers
    with the empty list. *)
Theorem list_tools_after_startup (request : JsonRpcRequest) (s s2 : state) :
  tables_consistent s ->
  discover_and_register_tools s = (Ok tt, s2) ->
  req_method request = "mcp_list_tools" ->
  (fst (initialize_all_tools s) = Ok tt ->
   mcp_rpc_handler request s2 =
     (Ok (response_result
            (VList (map model_dump (dict_values (TOOL_DEFINITIONS s))))
            (req_id request)), s2)) /\
  (forall e, fst (initialize_all_tools s) = Raise e ->
   mcp_rpc_handler request s2 =
     (Ok (response_result (VList []) (req_id request)), s2)) /\
  length (map model_dump (dict_values (TOOL_DEFINITIONS s))) =
    length (dict_keys (TOOL_EXECUTORS s)).
Proof.
  intros (Hnd & Hkeys & Hnames) E Hm.
  destruct (discover_and_register_tools_outcome s)
    as (s2' & new & E' & D & X & I & _ & _ & _ & R).
  rewrite E in E'. injection E' as <-.
  unfold mcp_rpc_handler. rewrite Hm. simpl.
  unfold bind, get_all_tool_definitions, gets, ret. rewrite R.
  split; [|split].
  - intros ->. rewrite registry_of_definitions; [reflexivity | exact Hnd |].
    intros k Hk. apply dict_mem_keys. now rewrite <- Hkeys.
  - intros e ->. reflexivity.
  - rewrite <- Hkeys. unfold dict_values, dict_keys. now rewrite !length_map.
Qed.

(** X4. After a startup on consistent tables, the schema endpoint returns
    the server's name and version and leaves the state as it is; its tools
    are the registered definitions, in the order of the definitions table,
    when the initializers' pass of the startup has returned, and none when
    the pass has raised. *)
Theorem schema_after_startup (s s2 : state) :
  tables_consistent s ->
  discover_and_register_tools s = (Ok tt, s2) ->
  exists schema,
    get_server_schema s2 = (Ok schema, s2) /\
    schema_name schema = "Unified MCP Tool Server" /\
    schema_version schema = "1.0.0" /\
    (fst (initialize_all_tools s) = Ok tt ->
     schema_tools schema = dict_values (TOOL_DEFINITIONS s)) /\
    (forall e, fst (initialize_all_tools s) = Raise e -> schema_tools schema = []).
Proof.
  intros (Hnd & Hkeys & Hnames) E.
  destruct (discover_and_register_tools_outcome s)
    as (s2' & new & E' & D & X & I & _ & _ & _ & R).
  rewrite E in E'. injection E' as <-.
  eexists. split; [reflexivity|]. simpl. rewrite R.
  split; [reflexivity|]. split; [reflexivity|]. split.
  - intros ->. rewrite registry_of_definitions; [reflexivity | exact Hnd |].
    intros k Hk. apply dict_mem_keys. now rewrite <- Hkeys.
  - intros e ->. reflexivity.
Qed.

End HandlerProperties.

(** ** Registration and startup *)

Section StartupProperties.

Context {env : Environment}.

(** X5. A successful [register_tool] files the definition and the executor
    under the key, whatever was there before (the last registration of a
    name wins and keeps the name's place; a new name goes to the end), and
    touches no other key. The dispatcher's registry, the world and the trace
    are as before: the tool is not callable until the next startup. *)
Theorem register_tool_files_under_key
    tool_name_ getter executor initializer shared (s s1 : state) :
  register_tool tool_name_ getter executor initializer shared s = (Ok tt, s1) ->
  dict_get tool_name_ (TOOL_DEFINITIONS s1) = Some (getter tt) /\
  get_tool_executor tool_name_ s1 = (Ok (Some executor), s1) /\
  (forall k, k <> tool_name_ ->
     dict_get k (TOOL_DEFINITIONS s1) = dict_get k (TOOL_DEFINITIONS s) /\
     dict_get k (TOOL_EXECUTORS s1) = dict_get k (TOOL_EXECUTORS s)) /\
  dict_keys (TOOL_DEFINITIONS s1) =
    (if dict_mem tool_name_ (TOOL_DEFINITIONS s)
     then dict_keys (TOOL_DEFINITIONS s)
     else dict_keys (TOOL_DEFINITIONS s) ++ [tool_name_]) /\
  _tool_registry s1 = _tool_registry s /\
  world s1 = world s /\
  trace s1 = trace s.
Proof.
  intros H.
  destruct (string_dec (tool_name (getter tt)) tool_name_) as [E|E].
  - rewrite register_tool_accepts in H by assumption. injection H as <-.
    destruct s as [defs execs inits reg w t]. unfold get_tool_executor, gets. simpl.
    split; [apply dict_get_set_eq|].
    split; [now rewrite dict_get_set_eq|].
    split; [intros k Hk; now rewrite !dict_get_set_neq by assumption|].
    split; [apply dict_keys_set | auto].
  - rewrite register_tool_rejects in H by assumption. discriminate.
Qed.

Lemma register_all_order (rs : list registration) : forall (s s1 : state),
  register_all rs s = (Ok tt, s1) ->
  NoDup (dict_keys (TOOL_DEFINITIONS s) ++ map reg_tool_name rs) ->
  dict_keys (TOOL_DEFINITIONS s) = dict_keys (TOOL_EXECUTORS s) ->
  TOOL_DEFINITIONS s1 =
    TOOL_DEFINITIONS s ++ map (fun r => (reg_tool_name r, reg_definition_getter r tt)) rs /\
  TOOL_EXECUTORS s1 =
    TOOL_EXECUTORS s ++ map (fun r => (reg_tool_name r, reg_executor r)) rs.
Proof.
  induction rs as [|r rs IH]; intros s s1 H Hnd Hkeys; simpl in *.
  - injection H as <-. now rewrite !app_nil_r.
  - unfold bind in H. destruct (register r s) as [[[]|e] sm] eqn:E; [|discriminate].
    unfold register in E.
    destruct (string_dec (tool_name (reg_definition_getter r tt)) (reg_tool_name r)) as [En|En].
    + rewrite register_tool_accepts in E by assumption. injection E as <-.
      assert (dict_mem (reg_tool_name r) (TOOL_DEFINITIONS s) = false) as Hd.
      { apply not_true_is_false. rewrite dict_mem_keys. intros Hin.
        apply NoDup_remove_2 in Hnd. apply Hnd, in_or_app. now left. }
      assert (dict_mem (reg_tool_name r) (TOOL_EXECUTORS s) = false) as Hx.
      { apply not_true_is_false. rewrite dict_mem_keys, <- Hkeys. rewrite <- dict_mem_keys.
        now rewrite Hd. }
      destruct s as [defs execs inits reg w t]. simpl in *.
      apply IH in H; simpl.
      * simpl in H.
        rewrite (dict_set_fresh _ _ _ Hd), (dict_set_fresh _ _ _ Hx) in H.
        now rewrite <- !app_assoc in H.
      * rewrite (dict_set_fresh _ _ _ Hd). unfold dict_keys. rewrite map_app. simpl.
        now rewrite <- app_assoc.
      * now apply dict_keys_set_same.
    + rewrite register_tool_rejects in E by assumption. discriminate.
Qed.

(** X6. A pass that registers distinct names from the empty tables leaves both
    tables in the order of the calls, each call's definition and executor
    under its name. *)
Theorem pass_keeps_registration_order (rs : list registration) (w : World) (s : state) :
  register_all rs (initial_state w) = (Ok tt, s) ->
  NoDup (map reg_tool_name rs) ->
  TOOL_DEFINITIONS s = map (fun r => (reg_tool_name r, reg_definition_getter r tt)) rs /\
  TOOL_EXECUTORS s = map (fun r => (reg_tool_name r, reg_executor r)) rs.
Proof.
  intros H Hnd. now apply (register_all_order rs _ H).
Qed.

(** X7. The registry that a startup leaves depends on the two tables and
    on whether the initializers' pass returned, and on nothing else: what
    the registry held before plays no part; two startups whose passes
    returned, on equal tables, leave equal registries; and a startup whose
    pass raised leaves the registry empty, whatever the tables hold. *)
Theorem startup_rebuilds_registry :
  (forall (s : state) (stale : dict RegisteredTool),
     _tool_registry (snd (discover_and_register_tools (set_tool_registry stale s))) =
     _tool_registry (snd (discover_and_register_tools s))) /\
  (forall sa sb sa' sb' : state,
     TOOL_DEFINITIONS sa = TOOL_DEFINITIONS sb ->
     TOOL_EXECUTORS sa = TOOL_EXECUTORS sb ->
     fst (initialize_all_tools sa) = Ok tt ->
     fst (initialize_all_tools sb) = Ok tt ->
     discover_and_register_tools sa = (Ok tt, sa') ->
     discover_and_register_tools sb = (Ok tt, sb') ->
     _tool_registry sa' = _tool_registry sb') /\
  (forall (s s2 : state) (e : exn),
     fst (initialize_all_tools s) = Raise e ->
     discover_and_register_tools s = (Ok tt, s2) ->
     _tool_registry s2 = []).
Proof.
  split; [|split].
  - intros s stale.
    destruct (discover_and_register_tools_outcome s) as (s2 & new & E & _ & _ & _ & _ & _ & _ & R).
    destruct (discover_and_register_tools_outcome (set_tool_registry stale s))
      as (s3 & new' & E' & _ & _ & _ & _ & _ & _ & R').
    rewrite E, E'. simpl. rewrite R, R', initialize_all_tools_frame.
    now destruct s.
  - intros sa sb sa' sb' HD HX Ia Ib Ea Eb.
    destruct (discover_and_register_tools_outcome sa) as (s2 & new & E & _ & _ & _ & _ & _ & _ & R).
    rewrite Ea in E. injection E as <-.
    destruct (discover_and_register_tools_outcome sb) as (s3 & new' & E & _ & _ & _ & _ & _ & _ & R').
    rewrite Eb in E. injection E as <-.
    now rewrite R, R', Ia, Ib, HD, HX.
  - intros s s2 e Hi E0.
    destruct (discover_and_register_tools_outcome s) as (s3 & new & E & _ & _ & _ & _ & _ & _ & R).
    rewrite E0 in E. injection E as <-. now rewrite R, Hi.
Qed.





End StartupProperties.

(** ** The tool modules *)

Section NeverRaises.

Context {S : Type}.

Lemma never_raises_ret {A} (a : A) : never_raises (ret (S := S) a).
Proof. intros s. now exists a, s. Qed.

Lemma never_raises_gets {A} (f : S -> A) : never_raises (gets f).
Proof. intros s. now exists (f s), s. Qed.

Lemma never_raises_modify (f : S -> S) : never_raises (modify f).
Proof. intros s. now exists tt, (f s). Qed.

Lemma never_raises_bind {A B} (m : M S A) (k : A -> M S B) :
  never_raises m -> (forall a, never_raises (k a)) -> never_raises (bind m k).
Proof.
  intros Hm Hk s. unfold bind.
  destruct (Hm s) as (a & s' & ->). apply Hk.
Qed.

(** A [try] whose handler returns, returns. *)
Lemma never_raises_try {A} (m : M S A) (h : exn -> M S A) :
  (forall e, never_raises (h e)) -> never_raises (try_except m h).
Proof.
  intros Hh s. unfold try_except.
  destruct (m s) as [[a|e] s']; [now exists a, s' | apply Hh].
Qed.

End NeverRaises.

Ltac never_raises_step :=
  lazymatch goal with
  | |- never_raises (ret _) => apply never_raises_ret
  | |- never_raises (gets _) => apply never_raises_gets
  | |- never_raises (modify _) => apply never_raises_modify
  | |- never_raises (try_except _ _) => apply never_raises_try; intros
  | |- never_raises (bind _ _) => apply never_raises_bind; [|intros]
  | |- never_raises (match ?x with _ => _ end) => destruct x
  | |- never_raises (let _ := _ in _) => cbv zeta
  end.

Lemma well_formed_has_status (v : value) :
  well_formed v -> has_key "status" v = true /\ has_key "error" v = true.
Proof.
  unfold well_formed, is_invocation_outcome, is_success_outcome, is_failure_outcome, has_key,
    dict_mem.
  destruct v as [| | | | | |d]; simpl; try discriminate.
  destruct (dict_get "status" d) as [st|]; [|now rewrite !andb_false_r].
  destruct (dict_get "error" d) as [er|]; [now split|].
  destruct st; try (now rewrite !andb_false_r);
    destruct (dict_get "output" d) as [[]|]; now rewrite !andb_false_r.
Qed.


Section ToolProperties.

Context {ext : External}.

Lemma raises_only_never {A} (P : exn -> Prop) (m : M ToolWorld A) :
  never_raises m -> raises_only P m.
Proof. intros H w e w' E. destruct (H w) as (a & w2 & E2). congruence. Qed.

Lemma raises_only_ret {A} (P : exn -> Prop) (a : A) : raises_only P (ret (S := ToolWorld) a).
Proof. intros w e w' E. discriminate. Qed.

Lemma raises_only_bind {A B} (P : exn -> Prop) (m : M ToolWorld A) (k : A -> M ToolWorld B) :
  raises_only P m -> (forall a, raises_only P (k a)) -> raises_only P (bind m k).
Proof.
  intros Hm Hk w e w' E. unfold bind in E.
  destruct (m w) as [[a|e0] w1] eqn:E1.
  - exact (Hk a _ _ _ E).
  - injection E as <- <-. exact (Hm _ _ _ E1).
Qed.

(** A [try] raises only what its handler raises. *)
Lemma raises_only_try {A} (P : exn -> Prop) (m : M ToolWorld A) (h : exn -> M ToolWorld A) :
  (forall e, raises_only P (h e)) -> raises_only P (try_except m h).
Proof.
  intros Hh w e w' E. unfold try_except in E.
  destruct (m w) as [[a|e0] w1]; [discriminate | exact (Hh _ _ _ _ E)].
Qed.

(** The [except] clauses raise only what the decoding of the body raises. *)
Lemma except_api_raises_only (op : string) (e : exn) :
  raises_only is_decode_error (except_api op e).
Proof.
  intros w e' w' E. unfold except_api in E.
  destruct e; try discriminate.
  unfold bind, lift, ret, bytes_decode in E.
  destruct (negb (String.eqb content EmptyString)); [|discriminate].
  destruct (utf8_valid content); [discriminate|].
  injection E as <- _. now eexists.
Qed.

(** The clauses return when the error is not an [HttpError], when its body
    is empty and when its body is UTF-8. *)
Lemma except_api_returns (op : string) (e : exn) (w : ToolWorld) :
  match e with
  | HttpError _ _ content _ => utf8_valid content = true
  | _ => True
  end ->
  exists v, except_api op e w = (Ok v, w).
Proof.
  unfold except_api. destruct e; intros H; try (now eexists).
  unfold bind, lift, ret, bytes_decode. rewrite H.
  destruct (negb (String.eqb content EmptyString)); now eexists.
Qed.

Lemma initialize_google_sheets_tool_never_raises :
  never_raises initialize_google_sheets_tool.
Proof. unfold initialize_google_sheets_tool. repeat never_raises_step. Qed.

Lemma ensure_google_sheets_service_never_raises :
  never_raises ensure_google_sheets_service.
Proof.
  unfold ensure_google_sheets_service.
  repeat never_raises_step. apply initialize_google_sheets_tool_never_raises.
Qed.

Ltac raises_only_step :=
  lazymatch goal with
  | |- raises_only _ (ret _) => apply raises_only_ret
  | |- raises_only _ ensure_google_sheets_service =>
      apply raises_only_never, ensure_google_sheets_service_never_raises
  | |- raises_only _ (try_except _ _) => apply raises_only_try; intros
  | |- raises_only _ (except_api _ _) => apply except_api_raises_only
  | |- raises_only _ (bind _ _) => apply raises_only_bind; [|intros]
  | |- raises_only _ (match ?x with _ => _ end) => destruct x
  | |- raises_only _ (let _ := _ in _) => cbv zeta
  end.

(** X10. The executors' side of the contract with [call_tool]. The search
    executor returns for every dict (what the handler passes). The three
    spreadsheet executors return or raise for every argument, and what they
    raise is a [UnicodeDecodeError] only: the one that
    [error.content.decode()] raises inside the [except HttpError] clause.
    The initializer of the spreadsheet client returns from every state. *)
Theorem executors_raise_only_decode_errors :
  (forall d, never_raises (execute_tavily_search (VDict d))) /\
  (forall inputs, raises_only is_decode_error (execute_google_sheets_append inputs)) /\
  (forall inputs, raises_only is_decode_error (execute_google_sheets_read inputs)) /\
  (forall inputs, raises_only is_decode_error (execute_google_sheets_update inputs)) /\
  never_raises initialize_google_sheets_tool.
Proof.
  split; [|split; [|split; [|split]]]; try intros x.
  - unfold execute_tavily_search. simpl py_get.
    repeat never_raises_step. intros w. now eexists _, w.
  - unfold execute_google_sheets_append. repeat raises_only_step.
  - unfold execute_google_sheets_read. repeat raises_only_step.
  - unfold execute_google_sheets_update. repeat raises_only_step.
  - apply initialize_google_sheets_tool_never_raises.
Qed.

(** X11. What the executors return has one of the two shapes of an Invocation
    Outcome, with one exception: the read executor can also return the record
    that has [status] and [error] and no [output]. *)
Theorem executors_return_outcomes :
  (forall inputs, returns_only well_formed (execute_tavily_search inputs)) /\
  (forall inputs, returns_only well_formed (execute_google_sheets_append inputs)) /\
  (forall inputs, returns_only well_formed (execute_google_sheets_update inputs)) /\
  (forall inputs,
     returns_only (fun v => well_formed v \/ v = empty_spreadsheet_data)
       (execute_google_sheets_read inputs)).
Proof.
  split; [exact execute_tavily_search_well_formed|].
  split; [exact execute_google_sheets_append_well_formed|].
  split; [exact execute_google_sheets_update_well_formed|].
  exact execute_google_sheets_read_shapes.
Qed.

End ToolProperties.

Section ToolBehaviour.

Context {ext : External}.

(** X12. The Tavily initializer is idempotent: once it has returned, calling it
    again returns and changes nothing. The Sheets initializer always returns,
    and changes nothing once the client is there; after a failed attempt the
    client is still missing, so that the next call tries again. *)
Theorem initializers_are_idempotent :
  (forall w w1,
     initialize_tavily_search_tool w = (Ok tt, w1) ->
     initialize_tavily_search_tool w1 = (Ok tt, w1)) /\
  (forall w,
     exists w1,
       initialize_google_sheets_tool w = (Ok tt, w1) /\
       (google_sheets_service w1 <> None ->
        initialize_google_sheets_tool w1 = (Ok tt, w1)) /\
       (forall e r, google_sheets_service w = None ->
                    google_auth_default_and_build (remote w) = (Raise e, r) ->
                    google_sheets_service w1 = None)).
Proof.
  split.
  - intros [tc gs r] w1 H.
    assert (tavily_client w1 <> None \/ (truthy TAVILY_API_KEY = false /\ tavily_client w1 = None))
      as Hw1.
    { unfold initialize_tavily_search_tool, bind, gets in H. cbn [tavily_client] in H.
      destruct tc as [c|]; [injection H as <-; left; discriminate|].
      destruct (truthy TAVILY_API_KEY) eqn:K.
      - unfold lift, modify in H. destruct (TavilyClient_new TAVILY_API_KEY) as [c|e];
          [|discriminate].
        injection H as <-. left. discriminate.
      - injection H as <-. right. now split. }
    clear H. destruct w1 as [tc1 gs1 r1]. cbn [tavily_client] in Hw1.
    unfold initialize_tavily_search_tool, bind, gets. cbn [tavily_client].
    destruct Hw1 as [Hc | [K ->]].
    + destruct tc1; [reflexivity | now elim Hc].
    + now rewrite K.
  - intros [tc gs r]. unfold initialize_google_sheets_tool, bind, gets. simpl.
    destruct gs as [svc|].
    + eexists. split; [reflexivity|]. split; [reflexivity | discriminate].
    + unfold try_except, bind, call_remote, modify. simpl.
      destruct (google_auth_default_and_build r) as [[svc|e] r'] eqn:B; simpl.
      * eexists. split; [reflexivity|]. simpl. split; [reflexivity|].
        intros e r0 _ [=].
      * eexists. split; [reflexivity|]. simpl. split; [intros H; now elim H | reflexivity].
Qed.

(** X13. Without a client the search executor does not try to make one: for any
    argument it returns the not-initialized failure and calls nothing. In a
    process without the API key the initializer leaves no client, so every
    search ends so. *)
Theorem tavily_search_needs_initialized_client (inputs : value) (w : ToolWorld) :
  tavily_client w = None ->
  execute_tavily_search inputs w =
    (Ok (failure "Tool error: Tavily client not initialized."), w) /\
  (truthy TAVILY_API_KEY = false ->
   (initialize_tavily_search_tool ;; execute_tavily_search inputs) w =
     (Ok (failure "Tool error: Tavily client not initialized."), w)).
Proof.
  intros H. destruct w as [tc gs r]. simpl in H. subst tc.
  split; [reflexivity|].
  intros K. unfold bind, initialize_tavily_search_tool, gets. simpl. now rewrite K.
Qed.

(** X14. A search whose [query] is missing, empty or not a [str] is refused with
    the invalid-input failure before anything is sent to Tavily. *)
Theorem tavily_search_validates_query (d : dict value) (c : TavilyClient) (w : ToolWorld) :
  tavily_client w = Some c ->
  truthy (value_get (VDict d) "query") = false \/
  isinstance_str (value_get (VDict d) "query") = false ->
  execute_tavily_search (VDict d) w =
    (Ok (failure "Invalid input: 'query' is missing or not a string."), w).
Proof.
  intros H Hq. destruct w as [tc gs r]. simpl in H. subst tc.
  unfold execute_tavily_search, bind, gets, lift. simpl.
  assert (negb (truthy (value_get (VDict d) "query"))
          || negb (isinstance_str (value_get (VDict d) "query")) = true) as E.
  { destruct Hq as [-> | ->]; [reflexivity | apply orb_true_r]. }
  simpl in E. now rewrite E.
Qed.


End ToolBehaviour.

Section SheetsBehaviour.

Context {ext : External}.

Lemma ensure_ready (w : ToolWorld) (svc : SheetsService) :
  google_sheets_service w = Some svc ->
  ensure_google_sheets_service w = (Ok (Some svc), w).
Proof.
  intros H. unfold ensure_google_sheets_service, bind, gets, ret. now rewrite H.
Qed.

Lemma ensure_unavailable (w : ToolWorld) (e : exn) (r : Remote) :
  google_sheets_service w = None ->
  google_auth_default_and_build (remote w) = (Raise e, r) ->
  ensure_google_sheets_service w = (Ok None, mkToolWorld (tavily_client w) None r).
Proof.
  intros H B. destruct w as [tc gs r0]. simpl in *. subst gs.
  unfold ensure_google_sheets_service, initialize_google_sheets_tool, bind, gets,
    try_except, call_remote, modify. simpl. now rewrite B.
Qed.

Lemma ensure_connects (w : ToolWorld) (svc : SheetsService) (r : Remote) :
  google_sheets_service w = None ->
  google_auth_default_and_build (remote w) = (Ok svc, r) ->
  ensure_google_sheets_service w =
    (Ok (Some svc), mkToolWorld (tavily_client w) (Some svc) r).
Proof.
  intros H B. destruct w as [tc gs r0]. simpl in *. subst gs.
  unfold ensure_google_sheets_service, initialize_google_sheets_tool, bind, gets,
    try_except, call_remote, modify. simpl. now rewrite B.
Qed.

(** After the client is there, an executor leaves it there. *)
Lemma keeps_ret {A} (P : ToolWorld -> Prop) (a : A) : keeps P (ret a).
Proof. intros w r w' H [= _ <-]. exact H. Qed.

Lemma keeps_lift {A} (P : ToolWorld -> Prop) (x : res A) : keeps P (lift x).
Proof. intros w r w' H [= _ <-]. exact H. Qed.

Lemma keeps_bind {A B} (P : ToolWorld -> Prop) (m : M ToolWorld A) (k : A -> M ToolWorld B) :
  keeps P m -> (forall a, keeps P (k a)) -> keeps P (bind m k).
Proof.
  intros Hm Hk w r w' H E. unfold bind in E.
  destruct (m w) as [[a|e] w1] eqn:Em.
  - exact (Hk a _ _ _ (Hm _ _ _ H Em) E).
  - injection E as _ <-. exact (Hm _ _ _ H Em).
Qed.

Lemma keeps_try {A} (P : ToolWorld -> Prop) (m : M ToolWorld A) (h : exn -> M ToolWorld A) :
  keeps P m -> (forall e, keeps P (h e)) -> keeps P (try_except m h).
Proof.
  intros Hm Hh w r w' H E. unfold try_except in E.
  destruct (m w) as [[a|e] w1] eqn:Em.
  - injection E as _ <-. exact (Hm _ _ _ H Em).
  - exact (Hh e _ _ _ (Hm _ _ _ H Em) E).
Qed.

Lemma keeps_service_call_remote {A} (svc : SheetsService) (f : Remote -> res A * Remote) :
  keeps (fun w => google_sheets_service w = Some svc) (call_remote f).
Proof.
  intros w r w' H E. unfold call_remote in E.
  destruct (f (remote w)) as [x r1]. injection E as _ <-. exact H.
Qed.

Lemma keeps_snd {A} (P : ToolWorld -> Prop) (m : M ToolWorld A) (w : ToolWorld) :
  keeps P m -> P w -> P (snd (m w)).
Proof.
  intros Hm H. destruct (m w) as [x w'] eqn:E. exact (Hm _ _ _ H E).
Qed.

Ltac keeps_step :=
  lazymatch goal with
  | |- keeps _ (ret _) => apply keeps_ret
  | |- keeps _ (lift _) => apply keeps_lift
  | |- keeps _ (call_remote _) => apply keeps_service_call_remote
  | |- keeps _ (try_except _ _) => apply keeps_try; [|intros]
  | |- keeps _ (bind _ _) => apply keeps_bind; [|intros]
  | |- keeps _ (match ?x with _ => _ end) => destruct x
  | |- keeps _ (let _ := _ in _) => cbv zeta
  | |- keeps _ (except_api _ _) => unfold except_api
  end.

(** X16. The spreadsheet executors make the client on first use. When that
    fails, each returns the not-initialized failure without calling the
    API, and the client is still missing; when it succeeds, the client is
    kept for the calls that follow. *)
Theorem sheets_client_is_made_on_first_use (inputs : value) (w : ToolWorld) :
  google_sheets_service w = None ->
  (forall e r,
     google_auth_default_and_build (remote w) = (Raise e, r) ->
     let w' := mkToolWorld (tavily_client w) None r in
     let not_initialized := failure "Tool error: Google Sheets client not initialized." in
     execute_google_sheets_append inputs w = (Ok not_initialized, w') /\
     execute_google_sheets_read inputs w = (Ok not_initialized, w') /\
     execute_google_sheets_update inputs w = (Ok not_initialized, w')) /\
  (forall svc r,
     google_auth_default_and_build (remote w) = (Ok svc, r) ->
     google_sheets_service (snd (execute_google_sheets_append inputs w)) = Some svc /\
     google_sheets_service (snd (execute_google_sheets_read inputs w)) = Some svc /\
     google_sheets_service (snd (execute_google_sheets_update inputs w)) = Some svc).
Proof.
  intros H. split.
  - intros e r B w' not_initialized.
    unfold execute_google_sheets_append, execute_google_sheets_read,
      execute_google_sheets_update, bind.
    rewrite (ensure_unavailable w H B). repeat split.
  - intros svc r B.
    split; [|split];
      [unfold execute_google_sheets_append | unfold execute_google_sheets_read
       | unfold execute_google_sheets_update];
      unfold bind at 1; rewrite (ensure_connects w H B); cbv beta iota;
      match goal with
      | |- google_sheets_service (snd (?m ?w1)) = _ =>
          apply (@keeps_snd _ (fun w => google_sheets_service w = Some svc) m w1);
          [repeat keeps_step | reflexivity]
      end.
Qed.

(** X17. Inputs that the request model refuses are reported as a failure with
    the validation message, and the API is not called. *)
Theorem sheets_reject_invalid_inputs
    (inputs : value) (w : ToolWorld) (svc : SheetsService) (e : exn) :
  google_sheets_service w = Some svc ->
  (AppendRequest_new inputs = Raise e ->
   execute_google_sheets_append inputs w =
     (Ok (failure (fstr ["Invalid input for append: "; exn_str e])), w)) /\
  (ReadRequest_new inputs = Raise e ->
   execute_google_sheets_read inputs w =
     (Ok (failure (fstr ["Invalid input for read: "; exn_str e])), w)) /\
  (UpdateRequest_new inputs = Raise e ->
   execute_google_sheets_update inputs w =
     (Ok (failure (fstr ["Invalid input for update: "; exn_str e])), w)).
Proof.
  intros H.
  unfold execute_google_sheets_append, execute_google_sheets_read,
    execute_google_sheets_update, bind.
  rewrite (ensure_ready w H).
  repeat split; intros ->; reflexivity.
Qed.




(** X21. For the repository's own function objects, a call that passes the
    envelope checks is never answered with a JSON-RPC error, registered tool
    or not: the response has a result, a dict with the keys [status] and
    [error]. *)
Theorem repository_call_is_never_a_protocol_error
    (request : JsonRpcRequest) (tool_id : string) (inputs : dict value)
    (s : @state repository) :
  passes_envelope request tool_id inputs ->
  exists response s',
    mcp_rpc_handler request s = (Ok response, s') /\
    rsp_error response = VNone /\
    has_key "status" (rsp_result response) = true /\
    has_key "error" (rsp_result response) = true.
Proof.
  intros Henv. rewrite (handler_after_envelope s Henv).
  assert (forall f w v w',
            repository_exec f (VDict inputs) w = (Ok v, w') ->
            has_key "status" v = true /\ has_key "error" v = true) as Hshape.
  { intros f w v w' E. unfold repository_exec in E.
    destruct (is_ f Fn.execute_tavily_search);
      [apply well_formed_has_status;
       exact (execute_tavily_search_well_formed (VDict inputs) w E)|].
    destruct (is_ f Fn.execute_google_sheets_append);
      [apply well_formed_has_status;
       exact (execute_google_sheets_append_well_formed (VDict inputs) w E)|].
    destruct (is_ f Fn.execute_google_sheets_read).
    { destruct (execute_google_sheets_read_shapes (VDict inputs) w E) as [Hw | ->];
        [now apply well_formed_has_status | now split]. }
    destruct (is_ f Fn.execute_google_sheets_update);
      [apply well_formed_has_status;
       exact (execute_google_sheets_update_well_formed (VDict inputs) w E)|].
    discriminate E. }
  unfold call_tool, bind, gets.
  destruct (dict_get tool_id (_tool_registry s)) as [tool|].
  - unfold try_except, call_executor.
    destruct (exec_behaviour (execute_func tool) (VDict inputs)
                (world (emit (EvExec (execute_func tool) (VDict inputs)) s)))
      as [[v|e] w'] eqn:E.
    + destruct (Hshape _ _ _ _ E) as (Hs & He).
      assert (truthy v = true) as T.
      { destruct v as [| | | | | |d]; try discriminate. destruct d; [discriminate|reflexivity]. }
      eexists _, _. split; [reflexivity|]. unfold respond. rewrite T. simpl. auto.
    + eexists _, _. split; [reflexivity|]. simpl. auto.
  - eexists _, _. split; [reflexivity|]. simpl. auto.
Qed.

End SheetsBehaviour.

(** ** The further properties on concrete runs *)

Lemma imported_consistent : tables_consistent Scripted.imported.
Proof.
  exact (register_all_preserves registrations
           (initial_state_consistent (env := @repository Scripted.backend)
              (mkToolWorld (ext := Scripted.backend) None None []))).
Defined.

Lemma imported_starts :
  discover_and_register_tools Scripted.imported =
  (Ok tt, snd (discover_and_register_tools Scripted.imported)).
Proof.
  exact (@returned_with_state _ _ discover_and_register_tools Scripted.imported tt eq_refl).
Defined.

Lemma unknown_method_is_rejected_witness :
  @mcp_rpc_handler Sample.environment
    {| req_jsonrpc := "2.0"; req_method := "MCP_LIST_TOOLS"; req_params := VNone;
       req_id := VNone |} Sample.serving
  = (Ok (response_error (-32601) "Method 'MCP_LIST_TOOLS' not found." VNone), Sample.serving).
Proof.
  apply (@unknown_method_is_rejected Sample.environment
           {| req_jsonrpc := "2.0"; req_method := "MCP_LIST_TOOLS"; req_params := VNone;
              req_id := VNone |} Sample.serving); discriminate.
Defined.

Lemma imported_initializes : fst (initialize_all_tools Scripted.imported) = Ok tt.
Proof. reflexivity. Defined.


Lemma list_tools_after_startup_witness :
  mcp_rpc_handler
    {| req_jsonrpc := "2.0"; req_method := "mcp_list_tools"; req_params := VNone;
       req_id := VInt 1 |}
    (snd (discover_and_register_tools Scripted.imported))
  = (Ok (response_result
           (VList (map model_dump (dict_values (TOOL_DEFINITIONS Scripted.imported))))
           (VInt 1)),
     snd (discover_and_register_tools Scripted.imported)) /\
  length (map model_dump (dict_values (TOOL_DEFINITIONS Scripted.imported))) = 4%nat.
Proof.
  destruct (@list_tools_after_startup (@repository Scripted.backend)
              {| req_jsonrpc := "2.0"; req_method := "mcp_list_tools"; req_params := VNone;
                 req_id := VInt 1 |}
              Scripted.imported (snd (discover_and_register_tools Scripted.imported))
              imported_consistent imported_starts eq_refl) as (A & _ & _).
  split; [exact (A imported_initializes) | reflexivity].
Defined.

Lemma schema_after_startup_witness :
  exists schema,
    get_server_schema (snd (discover_and_register_tools Scripted.imported))
      = (Ok schema, snd (discover_and_register_tools Scripted.imported)) /\
    schema_name schema = "Unified MCP Tool Server" /\
    schema_version schema = "1.0.0" /\
    schema_tools schema = dict_values (TOOL_DEFINITIONS Scripted.imported).
Proof.
  destruct (@schema_after_startup (@repository Scripted.backend)
              Scripted.imported (snd (discover_and_register_tools Scripted.imported))
              imported_consistent imported_starts) as (schema & E & N & V & T & _).
  exists schema. split; [exact E|]. split; [exact N|]. split; [exact V|].
  exact (T imported_initializes).
Defined.

Lemma register_tool_files_under_key_witness :
  dict_get "echo" (TOOL_DEFINITIONS
    (snd (@register_tool Sample.environment "echo" (Sample.describe "echo") Sample.crash
            None false Sample.serving)))
  = Some (Sample.describe "echo" tt).
Proof.
  exact (proj1 (@register_tool_files_under_key Sample.environment
                  "echo" (Sample.describe "echo") Sample.crash None false Sample.serving
                  _ eq_refl)).
Defined.

Lemma pass_keeps_registration_order_witness :
  dict_keys (TOOL_DEFINITIONS Scripted.imported) =
    ["tavily_search"; "google_sheets_append"; "google_sheets_read"; "google_sheets_update"].
Proof.
  destruct (@pass_keeps_registration_order (@repository Scripted.backend) registrations
              (mkToolWorld (ext := Scripted.backend) None None []) Scripted.imported
              (@returned_with_state _ _ (register_all registrations) Scripted.fresh tt eq_refl))
    as (D & _).
  - repeat constructor; simpl; intuition discriminate.
  - rewrite D. reflexivity.
Defined.

Lemma startup_rebuilds_registry_witness :
  _tool_registry
    (snd (discover_and_register_tools
            (set_tool_registry [("stale", Sample.tool "stale" Sample.echo)]
               Scripted.imported))) =
  _tool_registry (snd (discover_and_register_tools Scripted.imported)).
Proof.
  exact (proj1 (@startup_rebuilds_registry (@repository Scripted.backend))
           Scripted.imported [("stale", Sample.tool "stale" Sample.echo)]).
Defined.




Lemma tavily_search_needs_initialized_client_witness :
  execute_tavily_search (ext := Scripted.offline) (VDict [("query", VStr "rocq")])
    (mkToolWorld (ext := Scripted.offline) None None [])
  = (Ok (failure "Tool error: Tavily client not initialized."),
     mkToolWorld (ext := Scripted.offline) None None []) /\
  (initialize_tavily_search_tool (ext := Scripted.offline) ;;
   execute_tavily_search (VDict [("query", VStr "rocq")]))
    (mkToolWorld (ext := Scripted.offline) None None [])
  = (Ok (failure "Tool error: Tavily client not initialized."),
     mkToolWorld (ext := Scripted.offline) None None []).
Proof.
  destruct (@tavily_search_needs_initialized_client Scripted.offline
              (VDict [("query", VStr "rocq")])
              (mkToolWorld (ext := Scripted.offline) None None []) eq_refl) as (A & B).
  split; [exact A | exact (B eq_refl)].
Defined.

Lemma tavily_search_validates_query_witness :
  execute_tavily_search (ext := Scripted.backend) (VDict [("query", VInt 7)])
    (mkToolWorld (ext := Scripted.backend) (Some tt) None [])
  = (Ok (failure "Invalid input: 'query' is missing or not a string."),
     mkToolWorld (ext := Scripted.backend) (Some tt) None []).
Proof.
  apply (@tavily_search_validates_query Scripted.backend [("query", VInt 7)] tt
           (mkToolWorld (ext := Scripted.backend) (Some tt) None []) eq_refl).
  right. reflexivity.
Defined.


Lemma sheets_client_is_made_on_first_use_witness :
  execute_google_sheets_read (ext := Scripted.offline)
    (VDict [("spreadsheet_id", VStr "abc"); ("range", VStr "S!A1")])
    (mkToolWorld (ext := Scripted.offline) None None [])
  = (Ok (failure "Tool error: Google Sheets client not initialized."),
     mkToolWorld (ext := Scripted.offline) None None []) /\
  google_sheets_service
    (snd (execute_google_sheets_read (ext := Scripted.backend)
            (VDict [("spreadsheet_id", VStr "abc"); ("range", VStr "S!A1")])
            (mkToolWorld (ext := Scripted.backend) None None [])))
  = Some tt.
Proof.
  split.
  - exact (proj1 (proj2 (proj1 (@sheets_client_is_made_on_first_use Scripted.offline
                           (VDict [("spreadsheet_id", VStr "abc"); ("range", VStr "S!A1")])
                           (mkToolWorld (ext := Scripted.offline) None None []) eq_refl)
                           (Exception "default credentials were not found") [] eq_refl))).
  - exact (proj1 (proj2 (proj2 (@sheets_client_is_made_on_first_use Scripted.backend
                           (VDict [("spreadsheet_id", VStr "abc"); ("range", VStr "S!A1")])
                           (mkToolWorld (ext := Scripted.backend) None None []) eq_refl)
                           tt [] eq_refl))).
Defined.

Lemma sheets_reject_invalid_inputs_witness :
  execute_google_sheets_update (ext := Scripted.backend)
    (VDict [("spreadsheet_id", VStr "abc")])
    (mkToolWorld (ext := Scripted.backend) None (Some tt) [])
  = (Ok (failure "Invalid input for update: validation error for UpdateRequest"),
     mkToolWorld (ext := Scripted.backend) None (Some tt) []).
Proof.
  exact (proj2 (proj2 (@sheets_reject_invalid_inputs Scripted.backend
                         (VDict [("spreadsheet_id", VStr "abc")])
                         (mkToolWorld (ext := Scripted.backend) None (Some tt) []) tt
                         (ValidationError "validation error for UpdateRequest") eq_refl))
           eq_refl).
Defined.



Lemma repository_call_is_never_a_protocol_error_witness :
  exists response s',
    mcp_rpc_handler (Sample.call_tool_id "google_sheets_read" []) (Scripted.started [])
      = (Ok response, s') /\
    rsp_error response = VNone /\
    has_key "status" (rsp_result response) = true /\
    has_key "error" (rsp_result response) = true.
Proof.
  apply (@repository_call_is_never_a_protocol_error Scripted.backend
           (Sample.call_tool_id "google_sheets_read" []) "google_sheets_read" []
           (Scripted.started [])).
  repeat split; try reflexivity. discriminate.
Defined.

